(** * Real NVP example notebook ([example/real_nvp.ipynb])

    A shallow embedding of the notebook's five code cells and the properties
    of its control logic: the alternating coupling masks, the annealing
    schedule of the loss, the fixed-length training loop, the periodic
    checkpoints and the final plot.

    Conventions.
    - Python integers are [Z]; [%] on a positive modulus is [Z.modulo] and
      [range(n)] is the list [0; 1; ...; n-1].
    - Floating-point numbers that the notebook computes with are IEEE
      numbers, rounded to nearest even: binary64 for Python and NumPy scalars
      ([anneal_weight64] is the annealing weight as NumPy computes it, a
      primitive [float]) and binary32, a [spec_float], for the numbers in a
      torch tensor.  [anneal_weight] is the annealing weight over the exact
      rationals [Q].  A decimal literal that the notebook only hands to a
      constructor ([0.1], [1e-3]) is recorded as the rational it denotes.
    - Calls into torch, numpy, matplotlib and the normflow package are the
      operations of a [Framework]; each call is logged in a trace and may
      raise.  The statements of the notebook live in a state and exception
      monad over the notebook's variables and the libraries' state. *)

From Stdlib Require Import String.
From Stdlib Require Import ZArith QArith Qminmax Qabs Qpower List Bool Lia Lqa.
From Stdlib Require Import Floats Reals Qreals.
From Stdlib Require Lra.
Import ListNotations.

Set Implicit Arguments.
Open Scope Z_scope.

(** ** Python built-ins used by the notebook *)

(** [range_from start len] is [start; start+1; ...] of length [len]. *)
Fixpoint range_from (start : Z) (len : nat) : list Z :=
  match len with
  | O => []
  | S k => start :: range_from (start + 1) k
  end.

(** [range(n)]; empty when [n <= 0]. *)
Definition range (n : Z) : list Z := range_from 0 (Z.to_nat n).

(** [tqdm(iterable)] yields the items of [iterable] unchanged (it only draws a
    progress bar). *)
Definition tqdm {A : Type} (l : list A) : list A := l.

(** [np.min] of a non-empty sequence, given as head and tail. *)
Definition np_min (x : Q) (xs : list Q) : Q := fold_left Qmin xs x.

(** ** Floating-point numbers

    A [float32] number and an entry of a [float64] array are values of
    [spec_float]: a signed zero, an infinity, NaN, or [S754_finite s m e] for
    the number [(-1)^s * m * 2^e].  The operations below are those of the
    Standard Library's specification of IEEE arithmetic, at the precision
    and exponent range of the format. *)

(** Precision and exponent bound of binary32 (torch's [float32], the dtype
    of every floating-point tensor of the notebook) and of binary64 (Python's
    [float], NumPy's [float64]). *)
Definition prec32 : Z := 24.
Definition emax32 : Z := 128.
Definition prec64 : Z := 53.
Definition emax64 : Z := 1024.

(** Product and difference of two [float32] numbers. *)
Definition f32_mul (x y : spec_float) : spec_float := SFmul prec32 emax32 x y.
Definition f32_sub (x y : spec_float) : spec_float := SFsub prec32 emax32 x y.

(** The [float32] number nearest to a binary64 number: what torch makes of a
    Python scalar that meets a [float32] tensor in an arithmetic operation. *)
Definition f32_of_f64 (x : float) : spec_float :=
  match Prim2SF x with
  | S754_finite s m e => binary_round prec32 emax32 s m e
  | v => v
  end.

(** A [float32] number as a [float64] number, as NumPy stores it in a
    [float64] array; every [float32] number is a [float64] number, so nothing
    is rounded. *)
Definition f64_of_f32 (x : spec_float) : spec_float :=
  match x with
  | S754_finite s m e => binary_round prec64 emax64 s m e
  | v => v
  end.

(** The [float32] number nearest to an integer. *)
Definition f32_of_Z (z : Z) : spec_float := binary_normalize prec32 emax32 z 0 false.

(** The rational a floating-point number stands for; infinities and NaN
    stand for none. *)
Definition SF2Q (x : spec_float) : option Q :=
  match x with
  | S754_zero _ => Some 0%Q
  | S754_finite s m e => Some (inject_Z (cond_Zopp s (Z.pos m)) * Qpower 2 e)%Q
  | _ => None
  end.

(** Two floating-point numbers stand for the same rational, or both for
    none. *)
Definition same_number (x y : spec_float) : Prop :=
  match SF2Q x, SF2Q y with
  | Some a, Some b => (a == b)%Q
  | None, None => x = y
  | _, _ => False
  end.

(** Structural equality of floating-point numbers, as a boolean. *)
Definition SFbeq (x y : spec_float) : bool :=
  match x, y with
  | S754_zero s, S754_zero s' => Bool.eqb s s'
  | S754_infinity s, S754_infinity s' => Bool.eqb s s'
  | S754_nan, S754_nan => true
  | S754_finite s m e, S754_finite s' m' e' => Bool.eqb s s' && Pos.eqb m m' && Z.eqb e e'
  | _, _ => false
  end.

(** ** Hyperparameters (cell 2 and cell 4) *)

Definition K : Z := 8.
Definition grid_size : Z := 200.
Definition max_iter : Z := 20000.
Definition batch_size : Z := 128.
Definition num_samples : Z := 128.
Definition anneal_iter : Z := 10000.
Definition annealing : bool := true.
Definition show_iter : Z := 500.

(** ** The annealing schedule (cell 4, line [loss = ...]) *)

(** [np.min([1., 0.01 + it / anneal_iter])] over the exact rationals:
    Python's [/] on integers is true division. *)
Definition anneal_weight (it : Z) : Q :=
  np_min 1%Q [((1 # 100) + inject_Z it / inject_Z anneal_iter)%Q].

(** [v] is a convex combination of [a] and [b]. *)
Definition convex_combination (v a b : Q) : Prop :=
  exists l : Q, (0 <= l /\ l <= 1 /\ v == l * a + (1 - l) * b)%Q.

(** The test [(it + 1) % show_iter == 0] that guards a checkpoint. *)
Definition is_checkpoint (it : Z) : bool := (it + 1) mod show_iter =? 0.

(** The same weight in binary64, as NumPy computes it and as the loss uses
    it: [it / anneal_iter] is the correctly rounded quotient of two integers
    below 2^53, the literal [0.01] is the nearest double and [np.min] picks
    the smaller of the two. *)
Definition anneal_weight64 (it : Z) : float :=
  let v := (0x1.47ae147ae147bp-7
            + PrimFloat.of_uint63 (Uint63.of_Z it)
              / PrimFloat.of_uint63 (Uint63.of_Z anneal_iter))%float in
  if PrimFloat.ltb v 1%float then v else 1%float.

(** The [float32] value of [loss] from the values of [mean_log_q] and
    [mean_log_p], for either setting of the [annealing] flag: the weight is
    rounded to [float32], the product and the difference are rounded in
    turn. *)
Definition loss_value (anneal : bool) (it : Z) (mean_log_q mean_log_p : spec_float)
  : spec_float :=
  if anneal
  then f32_sub mean_log_q (f32_mul (f32_of_f64 (anneal_weight64 it)) mean_log_p)
  else f32_sub mean_log_q mean_log_p.

(** The binary64 weight of iteration [it] is within [2^-53] of the exact
    weight and lies between 0.01 and 1. *)
Definition anneal_weight64_close (it : Z) : bool :=
  match SF2Q (Prim2SF (anneal_weight64 it)) with
  | Some w =>
      Qle_bool (Qabs (w - anneal_weight it)) (1 # 9007199254740992)
      && Qle_bool (1 # 100) w && Qle_bool w 1
  | None => false
  end.

(** [forall_range f start len] checks [f] on [start .. start+len-1]. *)
Fixpoint forall_range (f : Z -> bool) (start : Z) (len : nat) : bool :=
  match len with
  | O => true
  | S k => f start && forall_range f (start + 1) k
  end.

(** ** Objects of the normflow library and of torch

    The notebook only constructs these objects and hands them to the library;
    they are recorded here by the arguments the notebook passes. *)

(** An integer tensor such as [torch.tensor([0, 1])]. *)
Definition IntTensor := list Z.

(** [c - t] for a Python integer [c] and an integer tensor [t]
    (elementwise, as in [1 - b]). *)
Definition int_rsub (c : Z) (t : IntTensor) : IntTensor := map (fun v => c - v) t.

(** [np.zeros(n)] and [np.ones(n)]. *)
Definition np_zeros (n : nat) : list Q := repeat 0%Q n.
Definition np_ones (n : nat) : list Q := repeat 1%Q n.

(** Modelled from the spec: the class [nf.nets.FCN] is not among the sources.
    It is one of the "small feed-forward networks"; the object is recorded by
    its identity and by the list of layer sizes it is constructed with. *)
Record FCN : Type := mkFCN { fcn_id : nat; fcn_layers : list Z }.

(** Modelled from the spec: the class [nf.flows.MaskedAffineFlow] is not among
    the sources.  It is the coupling "flow layer ... parameterized by two small
    function approximators" (scale [s] and translation [t]) with a binary
    mask [b]. *)
Record MaskedAffineFlow : Type :=
  mkMaskedAffineFlow { maf_b : IntTensor; maf_s : FCN; maf_t : FCN }.

(** Modelled from the spec: the class [nf.distributions.TwoModes] is not among
    the sources.  It is the "fixed analytic density" used as target; the
    object is recorded by its two constructor arguments. *)
Record TwoModes : Type := mkTwoModes { tm_loc : Q; tm_scale : Q }.

(** Modelled from the spec: the class [nf.distributions.ConstDiagGaussian] is
    not among the sources.  It is the base distribution, "a simple parametric
    density (e.g., diagonal Gaussian) supporting sampling and log-density
    evaluation", constructed from a mean vector and a vector of standard
    deviations. *)
Record ConstDiagGaussian : Type := mkConstDiagGaussian { loc : list Q; scale : list Q }.

(** Modelled from the spec: the class [nf.NormalizingFlow] is not among the
    sources.  It is the "ordered composition (base distribution, flow-layer
    sequence, target distribution)". *)
Record NormalizingFlow : Type :=
  mkNormalizingFlow { nf_prior : TwoModes; nf_q0 : ConstDiagGaussian;
                      nf_flows : list MaskedAffineFlow }.

Inductive Device : Type := Cpu | Cuda.

(** The arguments of [torch.optim.Adam(params, lr=..., weight_decay=...)]. *)
Record Adam : Type := mkAdam { lr : Q; weight_decay : Q }.

(** ** Sampling and log-density of a diagonal Gaussian *)

(** Interface of a density that supports sampling and log-density
    evaluation.  Sampling is by reparameterisation: it maps standard normal
    noise to a sample. *)
Class Distribution (D : Type) : Type := {
  dim : D -> nat;
  sample : D -> list Q -> list Q;
  log_prob : D -> list Q -> R
}.

(** [zip3 f l s e] applies [f] to the components of three vectors. *)
Fixpoint zip3 {A B C D : Type} (f : A -> B -> C -> D)
  (l : list A) (s : list B) (e : list C) : list D :=
  match l, s, e with
  | a :: l', b :: s', c :: e' => f a b c :: zip3 f l' s' e'
  | _, _, _ => []
  end.

(** Log-density of a one-dimensional Gaussian with mean [m] and standard
    deviation [sd] at [v]. *)
Definition gauss_log_density (m sd v : Q) : R :=
  (- (/ 2) * ln (2 * PI) - ln (Q2R sd)
   - / 2 * ((Q2R v - Q2R m) / Q2R sd) * ((Q2R v - Q2R m) / Q2R sd))%R.

(** Modelled from the spec: the methods of [ConstDiagGaussian] are not among
    the sources.  A diagonal Gaussian draws [loc + scale * eps] and its
    log-density is the sum of the one-dimensional log-densities. *)
#[export] Instance ConstDiagGaussian_Distribution : Distribution ConstDiagGaussian := {|
  dim := fun d => List.length (loc d);
  sample := fun d eps => zip3 (fun m sd e => (m + sd * e)%Q) (loc d) (scale d) eps;
  log_prob := fun d v => fold_right Rplus 0%R (zip3 gauss_log_density (loc d) (scale d) v)
|}.

(** ** Framework calls *)

(** One constructor per library call the notebook makes. *)
Inductive Event : Type :=
  (* cell 2 *)
  | EvTensor | EvFCN (layers : list Z) | EvIntRsub | EvMaskedAffineFlow (mask : IntTensor)
  | EvTwoModes | EvNpZeros | EvNpOnes | EvConstDiagGaussian | EvNormalizingFlow
  | EvCudaIsAvailable | EvDevice | EvModuleTo
  (* cell 3 *)
  | EvLinspace | EvMeshgrid | EvUnsqueeze | EvCat | EvLogProb | EvExp
  | EvFigure | EvPcolormesh | EvHist2d | EvShow
  (* cell 4 *)
  | EvNpArray | EvZeros (n : Z) | EvAdam
  | EvZeroGrad | EvForward (n_samples : Z) | EvMean | EvNpMin | EvRmul | EvSub
  | EvBackward | EvStep
  | EvCudaManualSeed (seed : Z) | EvTensorTo | EvToNumpy | EvNpAppend
  | EvPlot (label : string) | EvLegend.

(** The behaviour of torch, numpy and normflow, as far as the notebook uses
    it; the functions of these libraries are parameters of the development.
    A [Tensor] is a torch tensor of dtype [float32] with its autograd
    history, so [backward] can be a function of the loss tensor.
    [tensor_item] is the [float32] number a scalar tensor holds.  The two
    laws are IEEE arithmetic on these numbers: torch multiplies a tensor by a
    Python or NumPy scalar in the tensor's dtype, after rounding the scalar
    to it, and subtracts two tensors in their dtype.
    [raises n ev] tells whether the call [ev], made as the [n]-th call of the
    run, raises. *)
Class Framework : Type := {
  Tensor : Type;
  NdArray : Type;
  Params : Type;
  Grads : Type;
  OptState : Type;
  Gen : Type;
  Exn : Type;
  cuda_is_available : bool;
  fcn_init : list Z -> Params -> Gen -> Params * Gen;
  module_to : Device -> Params -> Params;
  torch_linspace : Z -> Z -> Z -> Tensor;
  torch_meshgrid : Tensor -> Tensor -> Tensor * Tensor;
  tensor_unsqueeze : Tensor -> Z -> Tensor;
  torch_cat : list Tensor -> Z -> Tensor;
  prior_log_prob : TwoModes -> Tensor -> Tensor;
  torch_exp : Tensor -> Tensor;
  torch_zeros : Z -> Device -> Tensor;
  tensor_to : Tensor -> Device -> Tensor;
  nfm_forward : NormalizingFlow -> Params -> Gen -> Tensor -> Z
                -> Tensor * Tensor * Tensor * Gen;
  torch_mean : Tensor -> Tensor;
  tensor_rmul : float -> Tensor -> Tensor;
  tensor_sub : Tensor -> Tensor -> Tensor;
  tensor_item : Tensor -> spec_float;
  to_numpy : Tensor -> NdArray;
  zero_grad : Grads -> Grads;
  backward : Tensor -> Grads -> Grads;
  adam_init : Adam -> Params -> OptState;
  adam_step : Adam -> Params -> Grads -> OptState -> Params * OptState;
  manual_seed : Z -> Gen;
  raises : nat -> Event -> option Exn;
  tensor_item_rmul : forall w t,
    tensor_item (tensor_rmul w t) = f32_mul (f32_of_f64 w) (tensor_item t);
  tensor_item_sub : forall a b,
    tensor_item (tensor_sub a b) = f32_sub (tensor_item a) (tensor_item b)
}.

(** A framework in which no call raises. *)
Definition NoRaise (F : Framework) : Prop := forall n ev, raises n ev = None.

Section Notebook.
Context {F : Framework}.

(** ** The state of a run *)

(** The notebook's global variables, in the order of their first
    assignment; [v_underscore] is the variable [_].  Python keeps the targets
    of every assignment in the notebook's namespace, so the loop variable
    [it] and the values computed in an iteration outlive it.  Not among them
    are the settings bound once to a literal ([K], [max_iter] and the others,
    the constants above) and the names that only cells 2 and 3 use ([i],
    [s], [t], [xx], [yy], [log_prob], [prob]), which are local to the
    definitions below.  The histories are [float64] arrays.  A variable that
    names a library object ([nfm], [q0], [optimizer], ...) holds which object
    it is, by the arguments it was constructed from; the state that the
    library changes in place (the parameters of the model, the optimizer's
    state) is part of [Fw] below. *)
Record Vars : Type := mkVars {
  v_b : IntTensor;
  v_flows : list MaskedAffineFlow;
  v_prior : TwoModes;
  v_q0 : ConstDiagGaussian;
  v_nfm : NormalizingFlow;
  v_device : Device;
  v_z : Tensor;
  v_underscore : Tensor;
  v_z_np : NdArray;
  v_loss_hist : list spec_float;
  v_log_q_hist : list spec_float;
  v_log_p_hist : list spec_float;
  v_x : Tensor;
  v_optimizer : Adam;
  v_it : Z;
  v_log_q : Tensor;
  v_log_p : Tensor;
  v_mean_log_q : Tensor;
  v_mean_log_p : Tensor;
  v_loss : Tensor
}.

(** What a matplotlib figure holds. *)
Inductive Artist : Type :=
  | AMesh (xx yy c : Tensor)
  | AHist2d (data : NdArray)
  | ALine (ys : list spec_float) (label : string)
  | ALegend.

(** The state the libraries keep: object identities handed out so far, the
    model's parameters with their gradient buffers, the optimizer's state, the
    two random generators, pyplot's current figure, the figures shown, and the
    log of calls with their outcome ([None]: returned, [Some e]: raised [e]). *)
Record Fw : Type := mkFw {
  next_id : nat;
  theta : Params;
  grads : Grads;
  opt_state : OptState;
  cpu_gen : Gen;
  cuda_gen : Gen;
  cur_fig : list Artist;
  shown : list (list Artist);
  trace : list (Event * option Exn)
}.

Record World : Type := mkWorld { vars : Vars; fw : Fw }.

(** *** Assignments to notebook variables *)

Definition set_b (a : IntTensor) (v : Vars) : Vars :=
  mkVars a (v_flows v) (v_prior v) (v_q0 v) (v_nfm v) (v_device v) (v_z v) (v_underscore v)
        (v_z_np v) (v_loss_hist v) (v_log_q_hist v) (v_log_p_hist v) (v_x v) (v_optimizer v)
        (v_it v) (v_log_q v) (v_log_p v) (v_mean_log_q v) (v_mean_log_p v) (v_loss v).
Definition set_flows (a : list MaskedAffineFlow) (v : Vars) : Vars :=
  mkVars (v_b v) a (v_prior v) (v_q0 v) (v_nfm v) (v_device v) (v_z v) (v_underscore v)
        (v_z_np v) (v_loss_hist v) (v_log_q_hist v) (v_log_p_hist v) (v_x v) (v_optimizer v)
        (v_it v) (v_log_q v) (v_log_p v) (v_mean_log_q v) (v_mean_log_p v) (v_loss v).
Definition set_prior (a : TwoModes) (v : Vars) : Vars :=
  mkVars (v_b v) (v_flows v) a (v_q0 v) (v_nfm v) (v_device v) (v_z v) (v_underscore v)
        (v_z_np v) (v_loss_hist v) (v_log_q_hist v) (v_log_p_hist v) (v_x v) (v_optimizer v)
        (v_it v) (v_log_q v) (v_log_p v) (v_mean_log_q v) (v_mean_log_p v) (v_loss v).
Definition set_q0 (a : ConstDiagGaussian) (v : Vars) : Vars :=
  mkVars (v_b v) (v_flows v) (v_prior v) a (v_nfm v) (v_device v) (v_z v) (v_underscore v)
        (v_z_np v) (v_loss_hist v) (v_log_q_hist v) (v_log_p_hist v) (v_x v) (v_optimizer v)
        (v_it v) (v_log_q v) (v_log_p v) (v_mean_log_q v) (v_mean_log_p v) (v_loss v).
Definition set_nfm (a : NormalizingFlow) (v : Vars) : Vars :=
  mkVars (v_b v) (v_flows v) (v_prior v) (v_q0 v) a (v_device v) (v_z v) (v_underscore v)
        (v_z_np v) (v_loss_hist v) (v_log_q_hist v) (v_log_p_hist v) (v_x v) (v_optimizer v)
        (v_it v) (v_log_q v) (v_log_p v) (v_mean_log_q v) (v_mean_log_p v) (v_loss v).
Definition set_device (a : Device) (v : Vars) : Vars :=
  mkVars (v_b v) (v_flows v) (v_prior v) (v_q0 v) (v_nfm v) a (v_z v) (v_underscore v)
        (v_z_np v) (v_loss_hist v) (v_log_q_hist v) (v_log_p_hist v) (v_x v) (v_optimizer v)
        (v_it v) (v_log_q v) (v_log_p v) (v_mean_log_q v) (v_mean_log_p v) (v_loss v).
Definition set_z (a : Tensor) (v : Vars) : Vars :=
  mkVars (v_b v) (v_flows v) (v_prior v) (v_q0 v) (v_nfm v) (v_device v) a (v_underscore v)
        (v_z_np v) (v_loss_hist v) (v_log_q_hist v) (v_log_p_hist v) (v_x v) (v_optimizer v)
        (v_it v) (v_log_q v) (v_log_p v) (v_mean_log_q v) (v_mean_log_p v) (v_loss v).
Definition set_underscore (a : Tensor) (v : Vars) : Vars :=
  mkVars (v_b v) (v_flows v) (v_prior v) (v_q0 v) (v_nfm v) (v_device v) (v_z v) a
        (v_z_np v) (v_loss_hist v) (v_log_q_hist v) (v_log_p_hist v) (v_x v) (v_optimizer v)
        (v_it v) (v_log_q v) (v_log_p v) (v_mean_log_q v) (v_mean_log_p v) (v_loss v).
Definition set_z_np (a : NdArray) (v : Vars) : Vars :=
  mkVars (v_b v) (v_flows v) (v_prior v) (v_q0 v) (v_nfm v) (v_device v) (v_z v)
        (v_underscore v) a (v_loss_hist v) (v_log_q_hist v) (v_log_p_hist v) (v_x v)
        (v_optimizer v) (v_it v) (v_log_q v) (v_log_p v) (v_mean_log_q v) (v_mean_log_p v)
        (v_loss v).
Definition set_loss_hist (a : list spec_float) (v : Vars) : Vars :=
  mkVars (v_b v) (v_flows v) (v_prior v) (v_q0 v) (v_nfm v) (v_device v) (v_z v)
        (v_underscore v) (v_z_np v) a (v_log_q_hist v) (v_log_p_hist v) (v_x v)
        (v_optimizer v) (v_it v) (v_log_q v) (v_log_p v) (v_mean_log_q v) (v_mean_log_p v)
        (v_loss v).
Definition set_log_q_hist (a : list spec_float) (v : Vars) : Vars :=
  mkVars (v_b v) (v_flows v) (v_prior v) (v_q0 v) (v_nfm v) (v_device v) (v_z v)
        (v_underscore v) (v_z_np v) (v_loss_hist v) a (v_log_p_hist v) (v_x v)
        (v_optimizer v) (v_it v) (v_log_q v) (v_log_p v) (v_mean_log_q v) (v_mean_log_p v)
        (v_loss v).
Definition set_log_p_hist (a : list spec_float) (v : Vars) : Vars :=
  mkVars (v_b v) (v_flows v) (v_prior v) (v_q0 v) (v_nfm v) (v_device v) (v_z v)
        (v_underscore v) (v_z_np v) (v_loss_hist v) (v_log_q_hist v) a (v_x v)
        (v_optimizer v) (v_it v) (v_log_q v) (v_log_p v) (v_mean_log_q v) (v_mean_log_p v)
        (v_loss v).
Definition set_x (a : Tensor) (v : Vars) : Vars :=
  mkVars (v_b v) (v_flows v) (v_prior v) (v_q0 v) (v_nfm v) (v_device v) (v_z v)
        (v_underscore v) (v_z_np v) (v_loss_hist v) (v_log_q_hist v) (v_log_p_hist v) a
        (v_optimizer v) (v_it v) (v_log_q v) (v_log_p v) (v_mean_log_q v) (v_mean_log_p v)
        (v_loss v).
Definition set_optimizer (a : Adam) (v : Vars) : Vars :=
  mkVars (v_b v) (v_flows v) (v_prior v) (v_q0 v) (v_nfm v) (v_device v) (v_z v)
        (v_underscore v) (v_z_np v) (v_loss_hist v) (v_log_q_hist v) (v_log_p_hist v)
        (v_x v) a (v_it v) (v_log_q v) (v_log_p v) (v_mean_log_q v) (v_mean_log_p v)
        (v_loss v).
Definition set_it (a : Z) (v : Vars) : Vars :=
  mkVars (v_b v) (v_flows v) (v_prior v) (v_q0 v) (v_nfm v) (v_device v) (v_z v)
        (v_underscore v) (v_z_np v) (v_loss_hist v) (v_log_q_hist v) (v_log_p_hist v)
        (v_x v) (v_optimizer v) a (v_log_q v) (v_log_p v) (v_mean_log_q v) (v_mean_log_p v)
        (v_loss v).
Definition set_log_q (a : Tensor) (v : Vars) : Vars :=
  mkVars (v_b v) (v_flows v) (v_prior v) (v_q0 v) (v_nfm v) (v_device v) (v_z v)
        (v_underscore v) (v_z_np v) (v_loss_hist v) (v_log_q_hist v) (v_log_p_hist v)
        (v_x v) (v_optimizer v) (v_it v) a (v_log_p v) (v_mean_log_q v) (v_mean_log_p v)
        (v_loss v).
Definition set_log_p (a : Tensor) (v : Vars) : Vars :=
  mkVars (v_b v) (v_flows v) (v_prior v) (v_q0 v) (v_nfm v) (v_device v) (v_z v)
        (v_underscore v) (v_z_np v) (v_loss_hist v) (v_log_q_hist v) (v_log_p_hist v)
        (v_x v) (v_optimizer v) (v_it v) (v_log_q v) a (v_mean_log_q v) (v_mean_log_p v)
        (v_loss v).
Definition set_mean_log_q (a : Tensor) (v : Vars) : Vars :=
  mkVars (v_b v) (v_flows v) (v_prior v) (v_q0 v) (v_nfm v) (v_device v) (v_z v)
        (v_underscore v) (v_z_np v) (v_loss_hist v) (v_log_q_hist v) (v_log_p_hist v)
        (v_x v) (v_optimizer v) (v_it v) (v_log_q v) (v_log_p v) a (v_mean_log_p v)
        (v_loss v).
Definition set_mean_log_p (a : Tensor) (v : Vars) : Vars :=
  mkVars (v_b v) (v_flows v) (v_prior v) (v_q0 v) (v_nfm v) (v_device v) (v_z v)
        (v_underscore v) (v_z_np v) (v_loss_hist v) (v_log_q_hist v) (v_log_p_hist v)
        (v_x v) (v_optimizer v) (v_it v) (v_log_q v) (v_log_p v) (v_mean_log_q v) a
        (v_loss v).
Definition set_loss (a : Tensor) (v : Vars) : Vars :=
  mkVars (v_b v) (v_flows v) (v_prior v) (v_q0 v) (v_nfm v) (v_device v) (v_z v)
        (v_underscore v) (v_z_np v) (v_loss_hist v) (v_log_q_hist v) (v_log_p_hist v)
        (v_x v) (v_optimizer v) (v_it v) (v_log_q v) (v_log_p v) (v_mean_log_q v)
        (v_mean_log_p v) a.

(** *** Updates of the libraries' state *)

Definition set_next_id (a : nat) (s : Fw) : Fw :=
  mkFw a (theta s) (grads s) (opt_state s) (cpu_gen s) (cuda_gen s) (cur_fig s) (shown s) (trace s).
Definition set_theta (a : Params) (s : Fw) : Fw :=
  mkFw (next_id s) a (grads s) (opt_state s) (cpu_gen s) (cuda_gen s) (cur_fig s) (shown s) (trace s).
Definition set_grads (a : Grads) (s : Fw) : Fw :=
  mkFw (next_id s) (theta s) a (opt_state s) (cpu_gen s) (cuda_gen s) (cur_fig s) (shown s) (trace s).
Definition set_opt_state (a : OptState) (s : Fw) : Fw :=
  mkFw (next_id s) (theta s) (grads s) a (cpu_gen s) (cuda_gen s) (cur_fig s) (shown s) (trace s).
Definition set_cpu_gen (a : Gen) (s : Fw) : Fw :=
  mkFw (next_id s) (theta s) (grads s) (opt_state s) a (cuda_gen s) (cur_fig s) (shown s) (trace s).
Definition set_cuda_gen (a : Gen) (s : Fw) : Fw :=
  mkFw (next_id s) (theta s) (grads s) (opt_state s) (cpu_gen s) a (cur_fig s) (shown s) (trace s).
Definition set_cur_fig (a : list Artist) (s : Fw) : Fw :=
  mkFw (next_id s) (theta s) (grads s) (opt_state s) (cpu_gen s) (cuda_gen s) a (shown s) (trace s).
Definition set_shown (a : list (list Artist)) (s : Fw) : Fw :=
  mkFw (next_id s) (theta s) (grads s) (opt_state s) (cpu_gen s) (cuda_gen s) (cur_fig s) a (trace s).
Definition set_trace (a : list (Event * option Exn)) (s : Fw) : Fw :=
  mkFw (next_id s) (theta s) (grads s) (opt_state s) (cpu_gen s) (cuda_gen s) (cur_fig s) (shown s) a.

(** The random generator that sampling on device [d] draws from. *)
Definition dev_gen (d : Device) (s : Fw) : Gen :=
  match d with Cpu => cpu_gen s | Cuda => cuda_gen s end.

(** Replaces the generator of device [d] by [g]. *)
Definition set_dev_gen (d : Device) (g : Gen) (s : Fw) : Fw :=
  mkFw (next_id s) (theta s) (grads s) (opt_state s)
       (match d with Cpu => g | Cuda => cpu_gen s end)
       (match d with Cpu => cuda_gen s | Cuda => g end)
       (cur_fig s) (shown s) (trace s).

(** ** The monad of notebook statements

    A statement maps a world to an outcome: it returns a value, or an
    exception leaves it.  Python propagates an exception through every
    enclosing statement unless a [try] catches it; [catch] is that construct,
    and the notebook never uses it. *)
Inductive Outcome (A : Type) : Type :=
  | Ok (a : A) (w : World)
  | Raised (e : Exn) (w : World).
Arguments Raised {A} e w.

Definition M (A : Type) : Type := World -> Outcome A.

Definition ret {A : Type} (a : A) : M A := fun w => Ok a w.

Definition bind {A B : Type} (m : M A) (k : A -> M B) : M B := fun w =>
  match m w with
  | Ok a w' => k a w'
  | Raised e w' => Raised e w'
  end.

(** [try: m except: h]. *)
Definition catch {A : Type} (m : M A) (h : Exn -> M A) : M A := fun w =>
  match m w with
  | Ok a w' => Ok a w'
  | Raised e w' => h e w'
  end.

(** Appending an entry to the log of calls. *)
Definition log (ev : Event) (r : option Exn) (s : Fw) : Fw :=
  set_trace (trace s ++ [(ev, r)]) s.

(** A library call [ev] whose effect on the libraries' state is [f]. *)
Definition call {A : Type} (ev : Event) (f : Fw -> A * Fw) : M A := fun w =>
  match raises (List.length (trace (fw w))) ev with
  | Some e => Raised e (mkWorld (vars w) (log ev (Some e) (fw w)))
  | None => let (a, s) := f (fw w) in Ok a (mkWorld (vars w) (log ev None s))
  end.

(** A library call that only computes a value. *)
Definition pure_call {A : Type} (ev : Event) (a : A) : M A := call ev (fun s => (a, s)).

(** Reading and assigning notebook variables. *)
Definition get_var {A : Type} (p : Vars -> A) : M A := fun w => Ok (p (vars w)) w.
Definition assign (f : Vars -> Vars) : M unit := fun w => Ok tt (mkWorld (f (vars w)) (fw w)).

(** [for it in l: body]. *)
Fixpoint for_each (l : list Z) (body : Z -> M unit) : M unit :=
  match l with
  | [] => ret tt
  | it :: l' => bind (body it) (fun _ => for_each l' body)
  end.

End Notebook.

Arguments Ok {F A} a w.
Arguments Raised {F A} e w.

Declare Scope nb_scope.
Delimit Scope nb_scope with nb.
Notation "x <- m ;; k" := (bind m (fun x => k))
  (at level 61, m at next level, right associativity) : nb_scope.
Notation "' p <- m ;; k" := (bind m (fun x => match x with p => k end))
  (at level 61, p pattern, m at next level, right associativity) : nb_scope.
Notation "m ;; k" := (bind m (fun _ => k))
  (at level 61, right associativity) : nb_scope.
Open Scope nb_scope.

Section Cells.
Context {F : Framework}.

(** ** Library calls with an effect *)

(** [nf.nets.FCN(layers)]: a new network object; its parameters are
    initialised from the CPU generator. *)
Definition new_FCN (layers : list Z) : M FCN :=
  call (EvFCN layers) (fun s =>
    let (th, g) := fcn_init layers (theta s) (cpu_gen s) in
    (mkFCN (next_id s) layers,
     set_next_id (S (next_id s)) (set_theta th (set_cpu_gen g s)))).

(** [nfm.to(device)]. *)
Definition nfm_to (d : Device) : M unit :=
  call EvModuleTo (fun s => (tt, set_theta (module_to d (theta s)) s)).

(** [nfm(x, num_samples)]: draws through the flow with the generator of the
    model's device and returns [(z, log_q, log_p)]. *)
Definition nfm_call (x : Tensor) (n : Z) : M (Tensor * Tensor * Tensor) :=
  nfm <- get_var v_nfm ;;
  d <- get_var v_device ;;
  call (EvForward n) (fun s =>
    let '(z, log_q, log_p, g) := nfm_forward nfm (theta s) (dev_gen d s) x n in
    ((z, log_q, log_p), set_dev_gen d g s)).

(** [torch.optim.Adam(nfm.parameters(), lr=..., weight_decay=...)]. *)
Definition new_Adam (cfg : Adam) : M Adam :=
  call EvAdam (fun s => (cfg, set_opt_state (adam_init cfg (theta s)) s)).

Definition optimizer_zero_grad : M unit :=
  call EvZeroGrad (fun s => (tt, set_grads (zero_grad (grads s)) s)).

Definition loss_backward (loss : Tensor) : M unit :=
  call EvBackward (fun s => (tt, set_grads (backward loss (grads s)) s)).

Definition optimizer_step : M unit :=
  cfg <- get_var v_optimizer ;;
  call EvStep (fun s =>
    let (th, o) := adam_step cfg (theta s) (grads s) (opt_state s) in
    (tt, set_theta th (set_opt_state o s))).

(** [torch.cuda.manual_seed(seed)] sets the CUDA generator and leaves the CPU
    generator alone. *)
Definition torch_cuda_manual_seed (seed : Z) : M unit :=
  call (EvCudaManualSeed seed) (fun s => (tt, set_cuda_gen (manual_seed seed) s)).

(** pyplot: [figure] starts a new current figure, a drawing call adds to it,
    [show] displays it. *)
Definition plt_figure : M unit :=
  call EvFigure (fun s => (tt, set_cur_fig [] s)).

Definition plt_draw (ev : Event) (a : Artist) : M unit :=
  call ev (fun s => (tt, set_cur_fig (cur_fig s ++ [a]) s)).

Definition plt_show : M unit :=
  call EvShow (fun s => (tt, set_shown (shown s ++ [cur_fig s]) (set_cur_fig [] s))).

(** ** Cell 2: model assembly *)

(** The body of [for i in range(K)]. *)
Definition build_flow (i : Z) : M unit :=
  s <- new_FCN [2; 8; 2] ;;
  t <- new_FCN [2; 8; 2] ;;
  if i mod 2 =? 0 then
    b <- get_var v_b ;;
    f <- pure_call (EvMaskedAffineFlow b) (mkMaskedAffineFlow b s t) ;;
    assign (fun v => set_flows (v_flows v ++ [f]) v)
  else
    b <- get_var v_b ;;
    nb <- pure_call EvIntRsub (int_rsub 1 b) ;;
    f <- pure_call (EvMaskedAffineFlow nb) (mkMaskedAffineFlow nb s t) ;;
    assign (fun v => set_flows (v_flows v ++ [f]) v).

Definition enable_cuda : bool := true.

Definition cell_model : M unit :=
  b <- pure_call EvTensor [0; 1] ;;
  assign (set_b b) ;;
  assign (set_flows []) ;;
  for_each (range K) build_flow ;;
  prior <- pure_call EvTwoModes (mkTwoModes 2 (1 # 10)) ;;
  assign (set_prior prior) ;;
  m <- pure_call EvNpZeros (np_zeros 2) ;;
  sd <- pure_call EvNpOnes (np_ones 2) ;;
  q0 <- pure_call EvConstDiagGaussian (mkConstDiagGaussian m sd) ;;
  assign (set_q0 q0) ;;
  prior <- get_var v_prior ;;
  q0 <- get_var v_q0 ;;
  flows <- get_var v_flows ;;
  nfm <- pure_call EvNormalizingFlow (mkNormalizingFlow prior q0 flows) ;;
  assign (set_nfm nfm) ;;
  avail <- pure_call EvCudaIsAvailable cuda_is_available ;;
  device <- pure_call EvDevice (if avail && enable_cuda then Cuda else Cpu) ;;
  assign (set_device device) ;;
  nfm_to device.

(** ** Cell 3: the target density and the untrained model *)

(** [plt.hist2d(z_np[:, :, 0].flatten(), z_np[:, :, 1].flatten(), ...)]. *)
Definition plot_samples : M unit :=
  plt_figure ;;
  z_np <- get_var v_z_np ;;
  plt_draw EvHist2d (AHist2d z_np) ;;
  plt_show.

Definition cell_plot_initial : M unit :=
  l1 <- pure_call EvLinspace (torch_linspace (-3) 3 grid_size) ;;
  l2 <- pure_call EvLinspace (torch_linspace (-3) 3 grid_size) ;;
  '(xx, yy) <- pure_call EvMeshgrid (torch_meshgrid l1 l2) ;;
  u1 <- pure_call EvUnsqueeze (tensor_unsqueeze xx 2) ;;
  u2 <- pure_call EvUnsqueeze (tensor_unsqueeze yy 2) ;;
  z <- pure_call EvCat (torch_cat [u1; u2] 2) ;;
  assign (set_z z) ;;
  prior <- get_var v_prior ;;
  log_prob <- pure_call EvLogProb (prior_log_prob prior z) ;;
  prob <- pure_call EvExp (torch_exp log_prob) ;;
  plt_figure ;;
  plt_draw EvPcolormesh (AMesh xx yy prob) ;;
  plt_show ;;
  device <- get_var v_device ;;
  x0 <- pure_call (EvZeros 512) (torch_zeros 512 device) ;;
  '(z, log_q, log_p) <- nfm_call x0 512 ;;
  assign (set_z z) ;;
  assign (set_underscore log_q) ;;
  assign (set_underscore log_p) ;;
  z <- get_var v_z ;;
  z_np <- pure_call EvToNumpy (to_numpy z) ;;
  assign (set_z_np z_np) ;;
  plot_samples.

(** ** Cell 4: training *)

(** Lines [optimizer.zero_grad()] to [optimizer.step()] of the loop body,
    for a value [anneal] of the flag [annealing].  The targets of
    [_, log_q, log_p = nfm(x, num_samples)] are assigned from left to right;
    the operands of [mean_log_q - np.min(...) * mean_log_p] are evaluated
    from left to right, the product before the difference. *)
Definition train_step_with (anneal : bool) (it : Z) : M unit :=
  optimizer_zero_grad ;;
  x <- get_var v_x ;;
  '(z, log_q, log_p) <- nfm_call x num_samples ;;
  assign (set_underscore z) ;;
  assign (set_log_q log_q) ;;
  assign (set_log_p log_p) ;;
  log_q <- get_var v_log_q ;;
  mean_log_q <- pure_call EvMean (torch_mean log_q) ;;
  assign (set_mean_log_q mean_log_q) ;;
  log_p <- get_var v_log_p ;;
  mean_log_p <- pure_call EvMean (torch_mean log_p) ;;
  assign (set_mean_log_p mean_log_p) ;;
  (if anneal then
     mean_log_q <- get_var v_mean_log_q ;;
     w <- pure_call EvNpMin (anneal_weight64 it) ;;
     mean_log_p <- get_var v_mean_log_p ;;
     wp <- pure_call EvRmul (tensor_rmul w mean_log_p) ;;
     loss <- pure_call EvSub (tensor_sub mean_log_q wp) ;;
     assign (set_loss loss)
   else
     mean_log_q <- get_var v_mean_log_q ;;
     mean_log_p <- get_var v_mean_log_p ;;
     loss <- pure_call EvSub (tensor_sub mean_log_q mean_log_p) ;;
     assign (set_loss loss)) ;;
  loss <- get_var v_loss ;;
  loss_backward loss ;;
  optimizer_step.

(** The notebook sets [annealing = True]. *)
Definition train_step (it : Z) : M unit := train_step_with annealing it.

(** [h = np.append(h, t.to('cpu').data.numpy())] for a scalar tensor [t]:
    the [float32] number of [t] is appended as a [float64] number. *)
Definition append_hist (h : Vars -> list spec_float)
  (set : list spec_float -> Vars -> Vars) (t : Vars -> Tensor) : M unit :=
  old <- get_var h ;;
  t <- get_var t ;;
  v <- pure_call EvToNumpy (tensor_item t) ;;
  new <- pure_call EvNpAppend (old ++ [f64_of_f32 v]) ;;
  assign (set new).

(** The body of [if (it + 1) % show_iter == 0]. *)
Definition checkpoint : M unit :=
  torch_cuda_manual_seed 0 ;;
  x0 <- pure_call (EvZeros 512) (torch_zeros 512 Cpu) ;;
  device <- get_var v_device ;;
  x0 <- pure_call EvTensorTo (tensor_to x0 device) ;;
  '(z, log_q, log_p) <- nfm_call x0 512 ;;
  assign (set_z z) ;;
  assign (set_underscore log_q) ;;
  assign (set_underscore log_p) ;;
  z <- get_var v_z ;;
  z_np <- pure_call EvToNumpy (to_numpy z) ;;
  assign (set_z_np z_np) ;;
  plot_samples ;;
  append_hist v_loss_hist set_loss_hist v_loss ;;
  append_hist v_log_q_hist set_log_q_hist v_mean_log_q ;;
  append_hist v_log_p_hist set_log_p_hist v_mean_log_p.

(** The body of [for it in tqdm(range(max_iter))], with the binding of the
    loop variable. *)
Definition iteration (it : Z) : M unit :=
  assign (set_it it) ;;
  train_step it ;;
  if (it + 1) mod show_iter =? 0 then checkpoint else ret tt.

(** The cell up to the loop. *)
Definition train_setup : M unit :=
  h <- pure_call EvNpArray [] ;;
  assign (set_loss_hist h) ;;
  h <- pure_call EvNpArray [] ;;
  assign (set_log_q_hist h) ;;
  h <- pure_call EvNpArray [] ;;
  assign (set_log_p_hist h) ;;
  device <- get_var v_device ;;
  x <- pure_call (EvZeros batch_size) (torch_zeros batch_size device) ;;
  assign (set_x x) ;;
  optimizer <- new_Adam (mkAdam (1 # 1000) (1 # 1000)) ;;
  assign (set_optimizer optimizer).

Definition train_loop : M unit := for_each (tqdm (range max_iter)) iteration.

(** The plot of the three histories after the loop. *)
Definition plot_hists : M unit :=
  plt_figure ;;
  h <- get_var v_loss_hist ;;
  plt_draw (EvPlot "loss") (ALine h "loss") ;;
  h <- get_var v_log_q_hist ;;
  plt_draw (EvPlot "log_q") (ALine h "log_q") ;;
  h <- get_var v_log_p_hist ;;
  plt_draw (EvPlot "log_p") (ALine h "log_p") ;;
  plt_draw EvLegend ALegend ;;
  plt_show.

Definition cell_train : M unit := train_setup ;; train_loop ;; plot_hists.

(** ** Cell 5: the final plot

    The line that would draw new samples is a comment in the notebook, so
    the cell starts at [z_np = z.to('cpu').data.numpy()]. *)
Definition cell_plot_final : M unit :=
  z <- get_var v_z ;;
  z_np <- pure_call EvToNumpy (to_numpy z) ;;
  assign (set_z_np z_np) ;;
  plot_samples.

(** The notebook, run from top to bottom. *)
Definition notebook : M unit :=
  cell_model ;; cell_plot_initial ;; cell_train ;; cell_plot_final.

End Cells.

(** ** Vocabulary of the statements below *)

Section Vocabulary.
Context {F : Framework}.

(** Log entries of calls that returned. *)
Definition ok_entries (l : list Event) : list (Event * option Exn) :=
  map (fun ev => (ev, None)) l.

(** The calls that compute [loss] from the two means. *)
Definition loss_events (anneal : bool) : list Event :=
  if anneal then [EvNpMin; EvRmul; EvSub] else [EvSub].

(** The calls of one pass through [train_step], in order: zeroing the
    gradients, the forward pass, the loss (two means, then [loss_events]),
    backpropagation, the optimizer step. *)
Definition train_events_with (anneal : bool) : list Event :=
  [EvZeroGrad; EvForward num_samples; EvMean; EvMean] ++ loss_events anneal
  ++ [EvBackward; EvStep].

Definition train_events : list Event := train_events_with annealing.

(** The loss tensor built from the two mean tensors. *)
Definition loss_tensor (anneal : bool) (it : Z) (mq mp : Tensor) : Tensor :=
  if anneal then tensor_sub mq (tensor_rmul (anneal_weight64 it) mp)
  else tensor_sub mq mp.

(** The generator state a checkpoint on device [d] draws from, when the
    generator of [d] was [g] before [torch.cuda.manual_seed(0)]. *)
Definition checkpoint_gen (d : Device) (g : Gen) : Gen :=
  match d with Cuda => manual_seed 0 | Cpu => g end.

(** The calls of one checkpoint. *)
Definition checkpoint_events : list Event :=
  [EvCudaManualSeed 0; EvZeros 512; EvTensorTo; EvForward 512; EvToNumpy;
   EvFigure; EvHist2d; EvShow;
   EvToNumpy; EvNpAppend; EvToNumpy; EvNpAppend; EvToNumpy; EvNpAppend].

Definition iteration_events (it : Z) : list Event :=
  train_events ++ (if is_checkpoint it then checkpoint_events else []).

(** The call [optimizer.step()]. *)
Definition is_step (ev : Event) : bool :=
  match ev with EvStep => true | _ => false end.

(** The world an outcome ends in. *)
Definition final_world {A : Type} (o : Outcome A) : World :=
  match o with Ok _ w => w | Raised _ w => w end.

(** The value an outcome returns, if it returns. *)
Definition returned {A : Type} (o : Outcome A) : option A :=
  match o with Ok a _ => Some a | Raised _ _ => None end.

(** The components of what [nfm(x, num_samples)] returns. *)
Definition fwd_z (r : Tensor * Tensor * Tensor * Gen) : Tensor := fst (fst (fst r)).
Definition fwd_log_q (r : Tensor * Tensor * Tensor * Gen) : Tensor := snd (fst (fst r)).
Definition fwd_log_p (r : Tensor * Tensor * Tensor * Gen) : Tensor := snd (fst r).
Definition fwd_gen (r : Tensor * Tensor * Tensor * Gen) : Gen := snd r.

(** The forward pass of a training step started in world [w]. *)
Definition train_forward (w : World) : Tensor * Tensor * Tensor * Gen :=
  nfm_forward (v_nfm (vars w)) (theta (fw w)) (dev_gen (v_device (vars w)) (fw w))
    (v_x (vars w)) num_samples.

(** The values a training step started in world [w] assigns to
    [mean_log_q], [mean_log_p] and, in iteration [it], to [loss]. *)
Definition step_mean_log_q (w : World) : Tensor := torch_mean (fwd_log_q (train_forward w)).
Definition step_mean_log_p (w : World) : Tensor := torch_mean (fwd_log_p (train_forward w)).
Definition step_loss (it : Z) (w : World) : Tensor :=
  loss_tensor annealing it (step_mean_log_q w) (step_mean_log_p w).

(** The draw of 512 samples with parameters [th] from generator state [g]. *)
Definition checkpoint_draw (v : Vars) (th : Params) (g : Gen) : Tensor * Tensor * Tensor * Gen :=
  nfm_forward (v_nfm v) th g (tensor_to (torch_zeros 512 Cpu) (v_device v)) 512.

(** [v] and [v'] agree on the variables that no statement of the training
    loop assigns. *)
Definition same_constants (v v' : Vars) : Prop :=
  v_b v' = v_b v /\ v_flows v' = v_flows v /\ v_prior v' = v_prior v /\
  v_q0 v' = v_q0 v /\ v_nfm v' = v_nfm v /\ v_device v' = v_device v /\
  v_x v' = v_x v /\ v_optimizer v' = v_optimizer v.


(** The iterations among the first [n] at which a checkpoint is taken. *)
Definition checkpoints (n : nat) : list Z := filter is_checkpoint (range_from 0 n).

(** The world after the first [k] iterations of a loop started in [w0]:
    the world in which iteration [k] starts. *)
Definition loop_state (w0 : World) (k : nat) : World :=
  final_world (for_each (range_from 0 k) iteration w0).

(** The entries that the checkpoint of iteration [it] appends to
    [loss_hist], [log_q_hist] and [log_p_hist] in a loop started in [w0]: the
    numbers of the tensors its training step computed. *)
Definition loss_entry (w0 : World) (it : Z) : spec_float :=
  f64_of_f32 (tensor_item (step_loss it (loop_state w0 (Z.to_nat it)))).
Definition log_q_entry (w0 : World) (it : Z) : spec_float :=
  f64_of_f32 (tensor_item (step_mean_log_q (loop_state w0 (Z.to_nat it)))).
Definition log_p_entry (w0 : World) (it : Z) : spec_float :=
  f64_of_f32 (tensor_item (step_mean_log_p (loop_state w0 (Z.to_nat it)))).

(** What holds after the first [k] iterations of a loop started in [w0]. *)
Definition after_iterations (w0 : World) (k : nat) (w : World) : Prop :=
  same_constants (vars w0) (vars w) /\
  next_id (fw w) = next_id (fw w0) /\
  trace (fw w) = trace (fw w0) ++ ok_entries (flat_map iteration_events (range_from 0 k)) /\
  v_loss_hist (vars w) = v_loss_hist (vars w0) ++ map (loss_entry w0) (checkpoints k) /\
  v_log_q_hist (vars w) = v_log_q_hist (vars w0) ++ map (log_q_entry w0) (checkpoints k) /\
  v_log_p_hist (vars w) = v_log_p_hist (vars w0) ++ map (log_p_entry w0) (checkpoints k) /\
  for_each (range_from 0 k) iteration w0 = Ok tt w.

(** The mask of the coupling layer at position [i]. *)
Definition mask_of (b : IntTensor) (i : nat) : IntTensor :=
  if Nat.even i then b else int_rsub 1 b.

(** The layer built by the pass [i] of the assembly loop, when the mask
    variable holds [b] and [id0] network objects existed before the loop. *)
Definition expected_flow (b : IntTensor) (id0 : nat) (i : nat) : MaskedAffineFlow :=
  mkMaskedAffineFlow (mask_of b i)
    (mkFCN (id0 + 2 * i) [2; 8; 2]) (mkFCN (id0 + 2 * i + 1) [2; 8; 2]).

Definition expected_flows (b : IntTensor) (id0 : nat) (k : nat) : list MaskedAffineFlow :=
  map (expected_flow b id0) (seq 0 k).

(** The identities of the networks of a list of layers. *)
Definition network_ids (flows : list MaskedAffineFlow) : list nat :=
  flat_map (fun f => [fcn_id (maf_s f); fcn_id (maf_t f)]) flows.

(** Some entry of a log is a forward pass of the model. *)
Definition draws (l : list (Event * option Exn)) : Prop :=
  exists n r, In (EvForward n, r) l.

(** A statement lets every exception through: whatever world it starts in,
    either every call it made returned, or it ended with the exception [e]
    that the framework raised at some call [ev], every call before [ev]
    returned, and [ev] is the last call made. *)
Definition propagating {A : Type} (m : M A) : Prop :=
  forall w,
    match m w with
    | Ok _ w' => exists l, trace (fw w') = trace (fw w) ++ ok_entries l
    | Raised e w' =>
        exists l ev,
          trace (fw w') = trace (fw w) ++ ok_entries l ++ [(ev, Some e)] /\
          raises (List.length (trace (fw w) ++ ok_entries l)) ev = Some e
    end.


End Vocabulary.

(** ** A small concrete framework

    Tensors and arrays are single [float32] numbers, parameters, gradients,
    optimizer state and generator states are integers; exceptions are their
    messages.  A forward pass returns a sample that depends on the parameters
    and on the generator state, with log-densities -2 and -3;
    backpropagation adds 1 to the gradient and an optimizer step adds the
    gradient to the parameters.  [fails] chooses the calls that raise. *)
Definition toy (fails : nat -> Event -> option string) : Framework := {|
  Tensor := spec_float;
  NdArray := spec_float;
  Params := Z;
  Grads := Z;
  OptState := Z;
  Gen := Z;
  Exn := string;
  cuda_is_available := true;
  fcn_init := fun _ th g => (th, g + 1);
  module_to := fun _ th => th;
  torch_linspace := fun _ _ _ => f32_of_Z 0;
  torch_meshgrid := fun a b => (a, b);
  tensor_unsqueeze := fun t _ => t;
  torch_cat := fun _ _ => f32_of_Z 0;
  prior_log_prob := fun _ t => t;
  torch_exp := fun t => t;
  torch_zeros := fun _ _ => f32_of_Z 0;
  tensor_to := fun t _ => t;
  nfm_forward := fun _ th g _ _ => (f32_of_Z (th + g), f32_of_Z (-2), f32_of_Z (-3), g + 1);
  torch_mean := fun t => t;
  tensor_rmul := fun w t => f32_mul (f32_of_f64 w) t;
  tensor_sub := f32_sub;
  tensor_item := fun t => t;
  to_numpy := fun t => t;
  zero_grad := fun _ => 0;
  backward := fun _ g => g + 1;
  adam_init := fun _ _ => 0;
  adam_step := fun _ th g o => (th + g, o + 1);
  manual_seed := fun seed => seed;
  raises := fails;
  tensor_item_rmul := fun w t => eq_refl;
  tensor_item_sub := fun a b => eq_refl
|}.

(** No call raises. *)
Definition never : nat -> Event -> option string := fun _ _ => None.

(** The call number [k] raises [msg]. *)
Definition fails_at (k : nat) (msg : string) : nat -> Event -> option string :=
  fun n _ => if Nat.eqb n k then Some msg else None.

(** A world before the first cell has run: the variables hold placeholders
    (Python has no binding for them yet), no call has been made. *)
Definition toy_vars (fails : nat -> Event -> option string) : @Vars (toy fails) :=
  let nan := S754_nan in
  mkVars (F := toy fails) [] [] (mkTwoModes 0 0) (mkConstDiagGaussian [] [])
    (mkNormalizingFlow (mkTwoModes 0 0) (mkConstDiagGaussian [] []) []) Cpu
    nan nan nan [] [] [] nan (mkAdam 0 0) 0 nan nan nan nan nan.

Definition toy_world (fails : nat -> Event -> option string) : @World (toy fails) :=
  mkWorld (toy_vars fails) (mkFw (F := toy fails) 0%nat 0 0 0 7 11 [] [] []).

(** The toy world when the training loop starts: cells 2 and 3 have run, and
    cell 4 up to the loop. *)
Definition toy_before_loop : @World (toy never) :=
  final_world ((cell_model ;; cell_plot_initial ;; train_setup) (toy_world never)).

(** The toy world after the first [n] iterations of the loop. *)
Definition toy_after (n : Z) : @World (toy never) :=
  final_world (for_each (range n) iteration toy_before_loop).

(** ** Vocabulary for the properties of the remaining code *)

Section MoreVocabulary.
Context {F : Framework}.

(** Triples over the notebook variables with one postcondition for each way a
    statement can end: from variables that satisfy [P], the statement either
    returns [a] and leaves variables that satisfy [Q a], or raises and leaves
    variables that satisfy [E]. *)
Definition vtriple {A : Type} (P : Vars -> Prop) (m : M A)
  (Q : A -> Vars -> Prop) (E : Vars -> Prop) : Prop :=
  forall w, P (vars w) ->
    match m w with
    | Ok a w' => Q a (vars w')
    | Raised _ w' => E (vars w')
    end.

(** The three histories have the same length. *)
Definition hists_aligned (v : Vars) : Prop :=
  List.length (v_loss_hist v) = List.length (v_log_q_hist v) /\
  List.length (v_log_q_hist v) = List.length (v_log_p_hist v).

(** [loss_hist] is at most one entry ahead of [log_p_hist], with
    [log_q_hist] in between. *)
Definition hists_ordered (v : Vars) : Prop :=
  (List.length (v_log_p_hist v) <= List.length (v_log_q_hist v))%nat /\
  (List.length (v_log_q_hist v) <= List.length (v_loss_hist v))%nat /\
  (List.length (v_loss_hist v) <= S (List.length (v_log_p_hist v)))%nat.

(** [s] and [s'] hold the same parameters, gradients and optimizer state, and
    the same number of network objects. *)
Definition same_training_state (s s' : Fw) : Prop :=
  theta s' = theta s /\ grads s' = grads s /\ opt_state s' = opt_state s /\
  next_id s' = next_id s.

(** [s] and [s'] hold the same figures: those shown and the current one. *)
Definition same_figures (s s' : Fw) : Prop :=
  shown s' = shown s /\ cur_fig s' = cur_fig s.

(** A statement keeps the relation [R] between the libraries' state it
    starts in and the one it leaves, however it ends. *)
Definition keeps_fw (R : Fw -> Fw -> Prop) {A : Type} (m : M A) : Prop :=
  forall w, R (fw w) (fw (final_world (m w))).

(** A figure that holds one two-dimensional histogram. *)
Definition is_hist_figure (f : list Artist) : Prop := exists d, f = [AHist2d d].

(** The iteration at which the checkpoint number [j] (from 0) is taken. *)
Definition checkpoint_iteration (j : nat) : Z := show_iter * (Z.of_nat j + 1) - 1.

(** The generator state [j] training steps after a reseeded checkpoint draw,
    computed with the variables [v] and parameters [th]. *)
Fixpoint train_gen (v : Vars) (th : Params) (j : nat) : Gen :=
  match j with
  | O => fwd_gen (checkpoint_draw v th (manual_seed 0))
  | S j' => fwd_gen (nfm_forward (v_nfm v) th (train_gen v th j') (v_x v) num_samples)
  end.

(** The generator state a forward pass leaves does not depend on the
    parameters of the model. *)
Definition gen_advance_ignores_params : Prop :=
  forall nfm th1 th2 g x n,
    fwd_gen (nfm_forward nfm th1 g x n) = fwd_gen (nfm_forward nfm th2 g x n).


End MoreVocabulary.

(** ** Facts about ranges *)

Lemma range_from_length : forall len start, length (range_from start len) = len.
Proof. induction len; simpl; intros; [reflexivity | now rewrite IHlen]. Qed.

Lemma range_from_snoc : forall len start,
  range_from start (S len) = range_from start len ++ [start + Z.of_nat len].
Proof.
  induction len; intros start.
  - simpl. now rewrite Z.add_0_r.
  - change (range_from start (S (S len)))
      with (start :: range_from (start + 1) (S len)).
    rewrite IHlen.
    change (range_from start (S len)) with (start :: range_from (start + 1) len).
    rewrite Nat2Z.inj_succ. simpl. do 3 f_equal. lia.
Qed.

Lemma range_from_In : forall len start i,
  In i (range_from start len) <-> start <= i < start + Z.of_nat len.
Proof.
  induction len; intros start i.
  - simpl. lia.
  - change (range_from start (S len)) with (start :: range_from (start + 1) len).
    simpl In. rewrite IHlen. lia.
Qed.

Lemma forall_range_spec : forall f len start,
  forall_range f start len = true ->
  forall i, start <= i < start + Z.of_nat len -> f i = true.
Proof.
  induction len; intros start H i Hi; [lia |].
  simpl in H. apply andb_true_iff in H as [H0 H1].
  destruct (Z.eq_dec i start) as [-> | Hne]; [assumption |].
  apply (IHlen (start + 1)); [assumption | lia].
Qed.

(** ** The annealing weight *)

Lemma anneal_weight_unfold : forall it,
  anneal_weight it = Qmin 1 ((1 # 100) + inject_Z it / inject_Z anneal_iter)%Q.
Proof. reflexivity. Qed.






(** ** Floating-point facts *)

Lemma SFbeq_eq : forall x y, SFbeq x y = true -> x = y.
Proof.
  intros [s | s | | s m e] [s' | s' | | s' m' e'] H; simpl in H; try discriminate H.
  - apply Bool.eqb_prop in H. now subst.
  - apply Bool.eqb_prop in H. now subst.
  - reflexivity.
  - apply andb_true_iff in H as [H He]. apply andb_true_iff in H as [Hs Hm].
    apply Bool.eqb_prop in Hs. apply Pos.eqb_eq in Hm. apply Z.eqb_eq in He. now subst.
Qed.

Lemma shr_1_even : forall p,
  shr_1 {| shr_m := Z.pos (xO p); shr_r := false; shr_s := false |}
  = {| shr_m := Z.pos p; shr_r := false; shr_s := false |}.
Proof. reflexivity. Qed.

(** Multiplying a [float32] number by 1 gives that number. *)
Lemma f32_mul_one : forall x, SpecFloat.valid_binary prec32 emax32 x = true ->
  f32_mul (f32_of_Z 1) x = x.
Proof.
  change (f32_of_Z 1) with (S754_finite false 8388608 (-23)).
  intros [s | s | | s m e] H; try reflexivity.
  unfold f32_mul, SFmul. cbn [xorb].
  simpl in H. unfold bounded, canonical_mantissa in H.
  apply andb_true_iff in H. destruct H as [Hc He].
  apply Z.eqb_eq in Hc. apply Z.leb_le in He.
  unfold binary_round_aux.
  change (8388608 * m)%positive with
    (xO (xO (xO (xO (xO (xO (xO (xO (xO (xO (xO (xO (xO (xO (xO (xO (xO (xO (xO (xO
      (xO (xO (xO m))))))))))))))))))))))).
  set (m23 := xO _).
  assert (Hd : Z.pos (digits2_pos m23) = Z.pos (digits2_pos m) + 23).
  { unfold m23. cbn [digits2_pos]. lia. }
  assert (E1 : shr_fexp prec32 emax32 (Z.pos m23) (-23 + e) loc_Exact
               = ({| shr_m := Z.pos m; shr_r := false; shr_s := false |}, e)).
  { unfold shr_fexp. cbn [Zdigits2 shr_record_of_loc]. rewrite Hd.
    replace (Z.pos (digits2_pos m) + 23 + (-23 + e)) with (Z.pos (digits2_pos m) + e) by lia.
    rewrite Hc.
    replace (e - (-23 + e)) with 23 by lia.
    unfold shr, m23. cbn [SpecFloat.iter_pos]. rewrite !shr_1_even.
    f_equal. lia. }
  rewrite E1. cbn [shr_m loc_of_shr_record round_nearest_even].
  unfold shr_fexp. cbn [Zdigits2 shr_record_of_loc].
  rewrite Hc, Z.sub_diag. cbn [shr shr_m].
  apply Z.leb_le in He. rewrite He. reflexivity.
Qed.

Lemma digits2_pos_iter_xO : forall k m,
  Z.pos (digits2_pos (Pos.iter xO m k)) = Z.pos (digits2_pos m) + Z.pos k.
Proof.
  intros k m. induction k as [| k IH] using Pos.peano_ind.
  - simpl. lia.
  - rewrite Pos.iter_succ. cbn [digits2_pos]. lia.
Qed.

Lemma pos_iter_xO : forall k m, Z.pos (Pos.iter xO m k) = Z.pos m * 2 ^ Z.pos k.
Proof.
  intros k m. induction k as [| k IH] using Pos.peano_ind.
  - simpl. lia.
  - rewrite Pos.iter_succ, Pos2Z.inj_xO, IH, Pos2Z.inj_succ, Z.pow_succ_r by lia. ring.
Qed.

(** Storing a [float32] number in a [float64] array does not change the
    number. *)
Lemma f64_of_f32_exact : forall x, SpecFloat.valid_binary prec32 emax32 x = true ->
  same_number (f64_of_f32 x) x.
Proof.
  unfold same_number.
  intros [s | s | | s m e] H; try (simpl; reflexivity).
  simpl in H. unfold bounded, canonical_mantissa in H.
  apply andb_true_iff in H. destruct H as [Hc He].
  apply Z.eqb_eq in Hc. apply Z.leb_le in He.
  unfold fexp, emin, prec32, emax32 in Hc, He.
  set (d := Z.pos (digits2_pos m)) in *.
  assert (Hd : 0 < d) by (unfold d; lia).
  unfold f64_of_f32, binary_round. fold d.
  assert (Hf : fexp prec64 emax64 (d + e) = d + e - 53).
  { unfold fexp, emin, prec64, emax64. lia. }
  rewrite Hf. unfold shl_align.
  destruct (d + e - 53 - e) as [| k | k] eqn:Ek; try lia.
  unfold binary_round_aux.
  assert (E1 : shr_fexp prec64 emax64 (Z.pos (Pos.iter xO m k)) (d + e - 53) loc_Exact
               = ({| shr_m := Z.pos (Pos.iter xO m k); shr_r := false; shr_s := false |},
                  d + e - 53)).
  { unfold shr_fexp. cbn [Zdigits2 shr_record_of_loc].
    rewrite digits2_pos_iter_xO. fold d.
    replace (fexp prec64 emax64 (d + Z.pos k + (d + e - 53))) with (d + e - 53)
      by (unfold fexp, emin, prec64, emax64; lia).
    rewrite Z.sub_diag. reflexivity. }
  rewrite E1. cbn [shr_m loc_of_shr_record round_nearest_even]. rewrite E1.
  cbn [shr_m].
  replace (d + e - 53 <=? emax64 - prec64) with true
    by (symmetry; apply Z.leb_le; unfold emax64, prec64; lia).
  cbn [SF2Q].
  assert (Ek' : Z.pos k = 53 - d) by lia.
  replace (cond_Zopp s (Z.pos (Pos.iter xO m k)))
    with (cond_Zopp s (Z.pos m) * 2 ^ Z.pos k)
    by (rewrite pos_iter_xO; destruct s; unfold cond_Zopp; lia).
  rewrite inject_Z_mult, Zpower_Qpower by lia.
  replace e with ((d + e - 53) + Z.pos k) at 2 by lia.
  rewrite Qpower_plus by discriminate.
  change (inject_Z 2) with 2%Q. ring.
Qed.

(** In every iteration of the loop the binary64 weight is the exact weight
    up to [2^-53], and lies between 0.01 and 1. *)
Lemma anneal_weight64_close_spec : forall it, 0 <= it < max_iter ->
  anneal_weight64_close it = true.
Proof.
  intros it Hit.
  apply (@forall_range_spec anneal_weight64_close (Z.to_nat max_iter) 0).
  - vm_compute. reflexivity.
  - rewrite Z2Nat.id by discriminate. lia.
Qed.

(** From iteration 9900 on the weight that meets the tensor is 1. *)
Lemma anneal_weight64_saturated : forall it, 9900 <= it < max_iter ->
  f32_of_f64 (anneal_weight64 it) = f32_of_Z 1.
Proof.
  intros it Hit. apply SFbeq_eq.
  apply (@forall_range_spec
           (fun it => SFbeq (f32_of_f64 (anneal_weight64 it)) (f32_of_Z 1))
           (Z.to_nat (max_iter - 9900)) 9900).
  - vm_compute. reflexivity.
  - rewrite Z2Nat.id by discriminate. unfold max_iter in *. lia.
Qed.

Lemma loss_value_saturated : forall it q p, 9900 <= it < max_iter ->
  SpecFloat.valid_binary prec32 emax32 p = true ->
  loss_value true it q p = f32_sub q p.
Proof.
  intros it q p Hit Hp. unfold loss_value.
  now rewrite anneal_weight64_saturated, f32_mul_one.
Qed.

(** ** Runs in which no call raises *)

Section Runs.
Context {F : Framework}.
Hypothesis HNR : NoRaise F.

Lemma dev_gen_log : forall d ev r s, dev_gen d (log ev r s) = dev_gen d s.
Proof. now destruct d. Qed.

Lemma dev_gen_set_next_id : forall d a s, dev_gen d (set_next_id a s) = dev_gen d s.
Proof. now destruct d. Qed.

Lemma dev_gen_set_theta : forall d a s, dev_gen d (set_theta a s) = dev_gen d s.
Proof. now destruct d. Qed.

Lemma dev_gen_set_grads : forall d a s, dev_gen d (set_grads a s) = dev_gen d s.
Proof. now destruct d. Qed.

Lemma dev_gen_set_opt_state : forall d a s, dev_gen d (set_opt_state a s) = dev_gen d s.
Proof. now destruct d. Qed.

Lemma dev_gen_set_cur_fig : forall d a s, dev_gen d (set_cur_fig a s) = dev_gen d s.
Proof. now destruct d. Qed.

Lemma dev_gen_set_shown : forall d a s, dev_gen d (set_shown a s) = dev_gen d s.
Proof. now destruct d. Qed.

Lemma dev_gen_set_dev_gen : forall d g s, dev_gen d (set_dev_gen d g s) = g.
Proof. now destruct d. Qed.

Lemma call_ok : forall (A : Type) ev (f : Fw -> A * Fw) w,
  call ev f w = Ok (fst (f (fw w))) (mkWorld (vars w) (log ev None (snd (f (fw w))))).
Proof. intros. unfold call. rewrite HNR. destruct (f (fw w)); reflexivity. Qed.

Lemma pure_call_ok : forall (A : Type) ev (a : A) w,
  pure_call ev a w = Ok a (mkWorld (vars w) (log ev None (fw w))).
Proof. intros. unfold pure_call. now rewrite call_ok. Qed.

Lemma nfm_call_ok : forall x n w,
  let r := nfm_forward (v_nfm (vars w)) (theta (fw w))
             (dev_gen (v_device (vars w)) (fw w)) x n in
  nfm_call x n w
  = Ok (fwd_z r, fwd_log_q r, fwd_log_p r)
       (mkWorld (vars w)
          (log (EvForward n) None (set_dev_gen (v_device (vars w)) (fwd_gen r) (fw w)))).
Proof.
  intros. unfold nfm_call, bind, get_var. rewrite call_ok. subst r.
  destruct (nfm_forward _ _ _ _ _) as [[[z lq] lp] g]. reflexivity.
Qed.

Lemma new_FCN_ok : forall layers w,
  new_FCN layers w
  = Ok (mkFCN (next_id (fw w)) layers)
       (mkWorld (vars w)
          (log (EvFCN layers) None
             (set_next_id (S (next_id (fw w)))
                (set_theta (fst (fcn_init layers (theta (fw w)) (cpu_gen (fw w))))
                   (set_cpu_gen (snd (fcn_init layers (theta (fw w)) (cpu_gen (fw w))))
                      (fw w)))))).
Proof.
  intros. unfold new_FCN. rewrite call_ok.
  destruct (fcn_init _ _ _). reflexivity.
Qed.

Lemma optimizer_step_ok : forall w,
  let r := adam_step (v_optimizer (vars w)) (theta (fw w)) (grads (fw w)) (opt_state (fw w)) in
  optimizer_step w
  = Ok tt (mkWorld (vars w)
             (log EvStep None (set_theta (fst r) (set_opt_state (snd r) (fw w))))).
Proof.
  intros. unfold optimizer_step, bind, get_var. rewrite call_ok. subst r.
  destruct (adam_step _ _ _ _). reflexivity.
Qed.

End Runs.

Create Rewrite HintDb fw_gen.
#[export] Hint Rewrite @dev_gen_log @dev_gen_set_next_id @dev_gen_set_theta @dev_gen_set_grads
  @dev_gen_set_opt_state @dev_gen_set_cur_fig @dev_gen_set_shown @dev_gen_set_dev_gen
  : fw_gen.

(** Symbolic execution of a statement made of calls that return. *)
Ltac run_step H :=
  first [ rewrite (pure_call_ok H) | rewrite (nfm_call_ok H) | rewrite (new_FCN_ok H)
        | rewrite (optimizer_step_ok H) | rewrite (call_ok H) ].
Ltac fw_simpl :=
  cbn [vars fw fst snd next_id theta grads opt_state cpu_gen cuda_gen cur_fig shown trace
       log set_next_id set_theta set_grads set_opt_state set_cpu_gen set_cuda_gen
       set_cur_fig set_shown set_trace set_dev_gen
       v_b v_flows v_prior v_q0 v_nfm v_device v_z v_underscore v_z_np
       v_loss_hist v_log_q_hist v_log_p_hist v_x v_optimizer
       v_it v_log_q v_log_p v_mean_log_q v_mean_log_p v_loss
       set_b set_flows set_prior set_q0 set_nfm set_device set_z set_underscore set_z_np
       set_loss_hist set_log_q_hist set_log_p_hist set_x set_optimizer
       set_it set_log_q set_log_p set_mean_log_q set_mean_log_p set_loss].
Ltac run H := repeat (cbv beta iota; fw_simpl; autorewrite with fw_gen; try run_step H).

Section RunBlocks.
Context {F : Framework}.
Hypothesis HNR : NoRaise F.

Lemma dev_gen_reseed : forall d s,
  dev_gen d (set_cuda_gen (manual_seed 0) s) = checkpoint_gen d (dev_gen d s).
Proof. now destruct d. Qed.

(** What one training step does to the world. *)
Lemma train_step_with_run : forall anneal it w,
  let r := train_forward w in
  let mq := torch_mean (fwd_log_q r) in
  let mp := torch_mean (fwd_log_p r) in
  let loss := loss_tensor anneal it mq mp in
  let gr := backward loss (zero_grad (grads (fw w))) in
  let st := adam_step (v_optimizer (vars w)) (theta (fw w)) gr (opt_state (fw w)) in
  exists w',
    train_step_with anneal it w = Ok tt w' /\
    vars w' = set_loss loss
                (set_mean_log_p mp
                   (set_mean_log_q mq
                      (set_log_p (fwd_log_p r)
                         (set_log_q (fwd_log_q r) (set_underscore (fwd_z r) (vars w)))))) /\
    trace (fw w') = trace (fw w) ++ ok_entries (train_events_with anneal) /\
    theta (fw w') = fst st /\ opt_state (fw w') = snd st /\ grads (fw w') = gr /\
    dev_gen (v_device (vars w)) (fw w') = fwd_gen r /\
    next_id (fw w') = next_id (fw w) /\
    cur_fig (fw w') = cur_fig (fw w) /\ shown (fw w') = shown (fw w).
Proof.
  intros anneal it w. unfold train_forward, loss_tensor.
  unfold train_step_with, optimizer_zero_grad, loss_backward, bind, get_var, assign, ret.
  destruct anneal; run HNR;
    (eexists; split; [reflexivity |]);
    fw_simpl; autorewrite with fw_gen; rewrite <- ?app_assoc;
    repeat split; reflexivity.
Qed.

(** What one checkpoint does to the world. *)
Lemma checkpoint_run : forall w,
  let g0 := checkpoint_gen (v_device (vars w)) (dev_gen (v_device (vars w)) (fw w)) in
  let r := checkpoint_draw (vars w) (theta (fw w)) g0 in
  exists w',
    checkpoint w = Ok tt w' /\
    vars w'
    = set_log_p_hist
        (v_log_p_hist (vars w) ++ [f64_of_f32 (tensor_item (v_mean_log_p (vars w)))])
        (set_log_q_hist
           (v_log_q_hist (vars w) ++ [f64_of_f32 (tensor_item (v_mean_log_q (vars w)))])
           (set_loss_hist
              (v_loss_hist (vars w) ++ [f64_of_f32 (tensor_item (v_loss (vars w)))])
              (set_z_np (to_numpy (fwd_z r))
                 (set_underscore (fwd_log_p r) (set_z (fwd_z r) (vars w)))))) /\
    trace (fw w') = trace (fw w) ++ ok_entries checkpoint_events /\
    theta (fw w') = theta (fw w) /\ opt_state (fw w') = opt_state (fw w) /\
    grads (fw w') = grads (fw w) /\ next_id (fw w') = next_id (fw w) /\
    dev_gen (v_device (vars w)) (fw w') = fwd_gen r /\
    shown (fw w') = shown (fw w) ++ [[AHist2d (to_numpy (fwd_z r))]].
Proof.
  intros w. unfold checkpoint_draw.
  rewrite <- dev_gen_reseed.
  unfold checkpoint, torch_cuda_manual_seed, plot_samples, plt_figure, plt_draw, plt_show,
    append_hist, bind, get_var, assign, ret.
  run HNR.
  eexists; split; [reflexivity |].
  fw_simpl; autorewrite with fw_gen; rewrite <- ?app_assoc.
  repeat split; reflexivity.
Qed.

End RunBlocks.

(** ** Loops *)

Section Loops.
Context {F : Framework}.

Lemma for_each_app : forall (body : Z -> M unit) l1 l2 w,
  for_each (l1 ++ l2) body w = bind (for_each l1 body) (fun _ => for_each l2 body) w.
Proof.
  intros body l1 l2. induction l1 as [| it l1 IH]; intros w.
  - reflexivity.
  - simpl. unfold bind. destruct (body it w) as [[] w1 | e w1].
    + rewrite IH. reflexivity.
    + reflexivity.
Qed.

(** Invariant rule for [for it in range(...)]: [Inv k] holds after [k]
    iterations. *)
Lemma for_each_inv : forall (body : Z -> M unit) (Inv : nat -> World -> Prop) n start,
  (forall k w, (k < n)%nat -> Inv k w ->
     exists w', body (start + Z.of_nat k) w = Ok tt w' /\ Inv (S k) w') ->
  forall w, Inv 0%nat w ->
  exists w', for_each (range_from start n) body w = Ok tt w' /\ Inv n w'.
Proof.
  intros body Inv n. revert Inv.
  induction n as [| n IH]; intros Inv start Hbody w H0.
  - exists w. split; [reflexivity | assumption].
  - simpl. unfold bind.
    destruct (Hbody 0%nat w) as [w1 [E1 H1]]; [lia | assumption |].
    rewrite Z.add_0_r in E1. rewrite E1.
    destruct (IH (fun k => Inv (S k)) (start + 1)) with (w := w1) as [w2 [E2 H2]].
    + intros k w' Hk Hinv.
      destruct (Hbody (S k) w') as [w'' [E H]]; [lia | assumption |].
      exists w''. split; [| assumption].
      rewrite <- E. f_equal. lia.
    + assumption.
    + exists w2. split; assumption.
Qed.

End Loops.

(** ** One iteration of the training loop *)

Section Iteration.
Context {F : Framework}.
Hypothesis HNR : NoRaise F.

Lemma iteration_run : forall it w,
  let d := v_device (vars w) in
  let r := train_forward w in
  let mq := torch_mean (fwd_log_q r) in
  let mp := torch_mean (fwd_log_p r) in
  let loss := loss_tensor annealing it mq mp in
  let gr := backward loss (zero_grad (grads (fw w))) in
  let st := adam_step (v_optimizer (vars w)) (theta (fw w)) gr (opt_state (fw w)) in
  let rc := checkpoint_draw (vars w) (fst st) (checkpoint_gen d (fwd_gen r)) in
  exists w',
    iteration it w = Ok tt w' /\
    same_constants (vars w) (vars w') /\
    trace (fw w') = trace (fw w) ++ ok_entries (iteration_events it) /\
    theta (fw w') = fst st /\ opt_state (fw w') = snd st /\ grads (fw w') = gr /\
    next_id (fw w') = next_id (fw w) /\
    if is_checkpoint it then
      v_z (vars w') = fwd_z rc /\ v_z_np (vars w') = to_numpy (fwd_z rc) /\
      v_loss_hist (vars w') = v_loss_hist (vars w) ++ [f64_of_f32 (tensor_item loss)] /\
      v_log_q_hist (vars w') = v_log_q_hist (vars w) ++ [f64_of_f32 (tensor_item mq)] /\
      v_log_p_hist (vars w') = v_log_p_hist (vars w) ++ [f64_of_f32 (tensor_item mp)] /\
      dev_gen d (fw w') = fwd_gen rc /\
      shown (fw w') = shown (fw w) ++ [[AHist2d (to_numpy (fwd_z rc))]]
    else
      v_z (vars w') = v_z (vars w) /\ v_z_np (vars w') = v_z_np (vars w) /\
      v_loss_hist (vars w') = v_loss_hist (vars w) /\
      v_log_q_hist (vars w') = v_log_q_hist (vars w) /\
      v_log_p_hist (vars w') = v_log_p_hist (vars w) /\
      dev_gen d (fw w') = fwd_gen r /\
      shown (fw w') = shown (fw w).
Proof.
  intros it w d r mq mp loss gr st rc.
  destruct (train_step_with_run HNR annealing it (mkWorld (set_it it (vars w)) (fw w)))
    as (w1 & E1 & Hv1 & Ht1 & Hth1 & Ho1 & Hg1 & Hgen1 & Hid1 & _ & Hs1).
  revert E1 Hv1 Ht1 Hth1 Ho1 Hg1 Hgen1 Hid1 Hs1. fw_simpl.
  intros E1 Hv1 Ht1 Hth1 Ho1 Hg1 Hgen1 Hid1 Hs1.
  unfold iteration, bind, assign, train_step. rewrite E1.
  unfold iteration_events, is_checkpoint.
  destruct ((it + 1) mod show_iter =? 0).
  - destruct (checkpoint_run HNR w1)
      as (w2 & E2 & Hv2 & Ht2 & Hth2 & Ho2 & Hg2 & Hid2 & Hgen2 & Hs2).
    rewrite E2.
    rewrite ?Hv1, ?Hth1 in Hv2, Hgen2, Hs2. revert Hv2 Hgen2 Hs2. fw_simpl.
    rewrite ?Hgen1. fold d rc. intros Hv2 Hgen2 Hs2.
    exists w2. split; [reflexivity |].
    rewrite Hv2, Ht2, Ht1, Hth2, Hth1, Ho2, Ho1, Hg2, Hg1, Hid2, Hid1, Hs2, Hs1, Hgen2.
    unfold same_constants, train_events. fw_simpl.
    rewrite <- app_assoc. unfold ok_entries. rewrite <- map_app.
    repeat split; reflexivity.
  - exists w1. split; [reflexivity |].
    fold d in Hgen1.
    rewrite Hv1, Ht1, Hth1, Ho1, Hg1, Hid1, Hs1, Hgen1.
    unfold same_constants, train_events. fw_simpl. rewrite app_nil_r.
    repeat split; reflexivity.
Qed.

(** The values an iteration leaves in the variables that every iteration
    assigns. *)
Lemma iteration_assigns : forall it w,
  let r := train_forward w in
  let mq := torch_mean (fwd_log_q r) in
  let mp := torch_mean (fwd_log_p r) in
  let loss := loss_tensor annealing it mq mp in
  let gr := backward loss (zero_grad (grads (fw w))) in
  let st := adam_step (v_optimizer (vars w)) (theta (fw w)) gr (opt_state (fw w)) in
  let rc := checkpoint_draw (vars w) (fst st)
              (checkpoint_gen (v_device (vars w)) (fwd_gen r)) in
  exists w',
    iteration it w = Ok tt w' /\
    v_it (vars w') = it /\
    v_log_q (vars w') = fwd_log_q r /\ v_log_p (vars w') = fwd_log_p r /\
    v_mean_log_q (vars w') = mq /\ v_mean_log_p (vars w') = mp /\
    v_loss (vars w') = loss /\
    v_underscore (vars w') = (if is_checkpoint it then fwd_log_p rc else fwd_z r) /\
    cur_fig (fw w') = (if is_checkpoint it then [] else cur_fig (fw w)) /\
    cpu_gen (fw w')
    = match v_device (vars w) with
      | Cpu => if is_checkpoint it then fwd_gen rc else fwd_gen r
      | Cuda => cpu_gen (fw w)
      end /\
    cuda_gen (fw w')
    = match v_device (vars w) with
      | Cpu => if is_checkpoint it then manual_seed 0 else cuda_gen (fw w)
      | Cuda => if is_checkpoint it then fwd_gen rc else fwd_gen r
      end.
Proof.
  intros it w r mq mp loss gr st rc.
  unfold iteration, train_step, train_step_with, checkpoint, append_hist, plot_samples,
    torch_cuda_manual_seed, optimizer_zero_grad, loss_backward, plt_figure, plt_draw,
    plt_show, annealing, is_checkpoint, bind, get_var, assign, ret.
  run HNR.
  unfold rc, checkpoint_draw, checkpoint_gen, st, gr, loss, loss_tensor, mq, mp, r,
    train_forward, annealing.
  destruct ((it + 1) mod show_iter =? 0); run HNR;
    (eexists; split; [reflexivity |]); fw_simpl; autorewrite with fw_gen;
    repeat split; try reflexivity;
    destruct (v_device (vars w)); reflexivity.
Qed.

End Iteration.

(** ** Checkpoint iterations and histories *)

Lemma is_checkpoint_spec : forall it, is_checkpoint it = true <-> (it + 1) mod show_iter = 0.
Proof. intros it. unfold is_checkpoint. apply Z.eqb_eq. Qed.

Lemma checkpoints_succ : forall k,
  checkpoints (S k)
  = checkpoints k ++ (if is_checkpoint (Z.of_nat k) then [Z.of_nat k] else []).
Proof.
  intros k. unfold checkpoints. rewrite range_from_snoc, filter_app. simpl.
  now destruct (is_checkpoint (Z.of_nat k)).
Qed.

Lemma div_succ_show_iter : forall a, 0 <= a ->
  (a + 1) / show_iter = a / show_iter + (if is_checkpoint a then 1 else 0).
Proof.
  intros a Ha. unfold is_checkpoint, show_iter.
  destruct (Z.eqb_spec ((a + 1) mod 500) 0) as [E | E];
    Z.to_euclidean_division_equations; lia.
Qed.

Lemma checkpoints_length : forall k,
  Z.of_nat (List.length (checkpoints k)) = Z.of_nat k / show_iter.
Proof.
  induction k as [| k IH].
  - reflexivity.
  - rewrite checkpoints_succ, length_app, Nat2Z.inj_add, IH, Nat2Z.inj_succ.
    unfold Z.succ. rewrite div_succ_show_iter by lia.
    now destruct (is_checkpoint (Z.of_nat k)).
Qed.

Lemma checkpoints_In : forall k it,
  In it (checkpoints k) <-> 0 <= it < Z.of_nat k /\ (it + 1) mod show_iter = 0.
Proof.
  intros k it. unfold checkpoints.
  rewrite filter_In, range_from_In, is_checkpoint_spec. lia.
Qed.

Lemma checkpoints_enumerated : forall k,
  checkpoints k
  = map checkpoint_iteration (seq 0 (Z.to_nat (Z.of_nat k / show_iter))).
Proof.
  induction k as [| k IH]; [reflexivity |].
  rewrite checkpoints_succ, IH, Nat2Z.inj_succ. unfold Z.succ.
  rewrite div_succ_show_iter by lia.
  destruct (is_checkpoint (Z.of_nat k)) eqn:Hck.
  - assert (H0 : 0 <= Z.of_nat k / show_iter) by (apply Z.div_pos; [lia | reflexivity]).
    rewrite Z2Nat.inj_add by lia. change (Z.to_nat 1) with 1%nat.
    rewrite Nat.add_1_r, seq_S, map_app. simpl. do 2 f_equal.
    unfold checkpoint_iteration. rewrite Z2Nat.id by lia.
    apply is_checkpoint_spec in Hck. unfold show_iter in *.
    Z.to_euclidean_division_equations. lia.
  - now rewrite Z.add_0_r, app_nil_r.
Qed.

(** The checkpoints of the whole loop are the iterations
    [500 * (j + 1) - 1] for [j] from 0 to 39. *)
Lemma checkpoints_nth : forall (A : Type) (f : Z -> A) j, (j < 40)%nat ->
  nth_error (map f (checkpoints (Z.to_nat max_iter))) j = Some (f (checkpoint_iteration j)).
Proof.
  intros A f j Hj.
  rewrite checkpoints_enumerated, Z2Nat.id by discriminate.
  change (Z.to_nat (max_iter / show_iter)) with 40%nat.
  rewrite !nth_error_map, nth_error_seq.
  destruct (Nat.ltb_spec j 40); [reflexivity | lia].
Qed.

Lemma steps_of_iterations : forall l,
  List.length (filter is_step (flat_map iteration_events l)) = List.length l.
Proof.
  induction l as [| it l IH]; [reflexivity |].
  simpl. rewrite filter_app, length_app, IH.
  unfold iteration_events. now destruct (is_checkpoint it).
Qed.

(** ** The training loop *)

Section Constants.
Context {F : Framework}.

Lemma same_constants_refl : forall v, same_constants v v.
Proof. intros v. unfold same_constants. repeat split; reflexivity. Qed.

Lemma same_constants_trans : forall v1 v2 v3,
  same_constants v1 v2 -> same_constants v2 v3 -> same_constants v1 v3.
Proof.
  unfold same_constants.
  intros v1 v2 v3 (A1 & A2 & A3 & A4 & A5 & A6 & A7 & A8) (B1 & B2 & B3 & B4 & B5 & B6 & B7 & B8).
  repeat split; etransitivity; eassumption.
Qed.

End Constants.

Section Training.
Context {F : Framework}.
Hypothesis HNR : NoRaise F.

Lemma bind_run : forall (A B : Type) (m : M A) (k : A -> M B) w a w1,
  m w = Ok a w1 -> bind m k w = k a w1.
Proof. intros A B m k w a w1 E. unfold bind. now rewrite E. Qed.

Lemma loss_tensor_item : forall anneal it mq mp,
  tensor_item (loss_tensor anneal it mq mp)
  = loss_value anneal it (tensor_item mq) (tensor_item mp).
Proof.
  intros [] it mq mp; unfold loss_tensor, loss_value.
  - now rewrite tensor_item_sub, tensor_item_rmul.
  - apply tensor_item_sub.
Qed.

Lemma loop_state_succ : forall w0 k w w',
  for_each (range_from 0 k) iteration w0 = Ok tt w ->
  iteration (Z.of_nat k) w = Ok tt w' ->
  for_each (range_from 0 (S k)) iteration w0 = Ok tt w'.
Proof.
  intros w0 k w w' E E'.
  rewrite range_from_snoc, for_each_app. erewrite bind_run by exact E.
  simpl. unfold bind. rewrite E'. reflexivity.
Qed.

Lemma after_iterations_0 : forall w0, after_iterations w0 0 w0.
Proof.
  intros w0. unfold after_iterations. split; [apply same_constants_refl |].
  split; [reflexivity |]. simpl. rewrite !app_nil_r. repeat split; reflexivity.
Qed.

Lemma after_iterations_step : forall w0 k w,
  after_iterations w0 k w ->
  exists w', iteration (0 + Z.of_nat k) w = Ok tt w' /\ after_iterations w0 (S k) w'.
Proof.
  intros w0 k w (Hc & Hid & Ht & Hl & Hq & Hp & E0).
  rewrite Z.add_0_l.
  destruct (iteration_run HNR (Z.of_nat k) w)
    as (w' & E & Hc' & Ht' & _ & _ & _ & Hid' & Hck).
  exists w'. split; [assumption |].
  unfold after_iterations.
  split; [eapply same_constants_trans; eassumption |].
  split; [congruence |].
  split.
  { rewrite Ht', Ht, range_from_snoc, flat_map_app. simpl. rewrite app_nil_r.
    unfold ok_entries. now rewrite map_app, app_assoc. }
  pose proof (@loop_state_succ w0 k w w' E0 E) as E1.
  assert (Hw : loop_state w0 k = w) by (unfold loop_state; now rewrite E0).
  rewrite checkpoints_succ, !map_app, !app_assoc, <- Hl, <- Hq, <- Hp.
  destruct (is_checkpoint (Z.of_nat k)).
  - destruct Hck as (_ & _ & Hl' & Hq' & Hp' & _).
    rewrite Hl', Hq', Hp'. simpl.
    unfold loss_entry, log_q_entry, log_p_entry, step_loss, step_mean_log_q,
      step_mean_log_p. rewrite Nat2Z.id, Hw.
    repeat split; try reflexivity. exact E1.
  - destruct Hck as (_ & _ & Hl' & Hq' & Hp' & _).
    simpl. rewrite !app_nil_r. repeat split; assumption.
Qed.

(** The first [n] iterations run to their end. *)
Lemma iterations_run : forall n w0,
  exists w, for_each (range_from 0 n) iteration w0 = Ok tt w /\ after_iterations w0 n w.
Proof.
  intros n w0.
  apply (for_each_inv iteration (after_iterations w0)).
  - intros k w _ H. now apply after_iterations_step.
  - apply after_iterations_0.
Qed.

End Training.

(** ** The other cells *)

Lemma even_of_nat : forall i, Z.even (Z.of_nat i) = Nat.even i.
Proof.
  induction i as [| i IH]; [reflexivity |].
  rewrite Nat2Z.inj_succ, Z.even_succ, Nat.even_succ, <- Z.negb_even, <- Nat.negb_even.
  now rewrite IH.
Qed.

Section CellsRun.
Context {F : Framework}.
Hypothesis HNR : NoRaise F.

Lemma train_setup_run : forall w,
  exists w',
    train_setup w = Ok tt w' /\
    vars w' = set_optimizer (mkAdam (1 # 1000) (1 # 1000))
                (set_x (torch_zeros batch_size (v_device (vars w)))
                   (set_log_p_hist [] (set_log_q_hist [] (set_loss_hist [] (vars w))))) /\
    trace (fw w') = trace (fw w)
                    ++ ok_entries [EvNpArray; EvNpArray; EvNpArray; EvZeros batch_size; EvAdam] /\
    theta (fw w') = theta (fw w) /\ next_id (fw w') = next_id (fw w) /\
    opt_state (fw w') = adam_init (mkAdam (1 # 1000) (1 # 1000)) (theta (fw w)) /\
    shown (fw w') = shown (fw w).
Proof.
  intros w. unfold train_setup, new_Adam, bind, get_var, assign.
  run HNR. eexists; split; [reflexivity |].
  fw_simpl. rewrite <- ?app_assoc. repeat split; reflexivity.
Qed.

Lemma plot_hists_run : forall w,
  exists w',
    plot_hists w = Ok tt w' /\
    vars w' = vars w /\
    trace (fw w') = trace (fw w)
                    ++ ok_entries [EvFigure; EvPlot "loss"; EvPlot "log_q"; EvPlot "log_p";
                                   EvLegend; EvShow] /\
    theta (fw w') = theta (fw w) /\
    shown (fw w') = shown (fw w)
                    ++ [[ALine (v_loss_hist (vars w)) "loss";
                         ALine (v_log_q_hist (vars w)) "log_q";
                         ALine (v_log_p_hist (vars w)) "log_p"; ALegend]].
Proof.
  intros w. unfold plot_hists, plt_figure, plt_draw, plt_show, bind, get_var.
  run HNR. eexists; split; [reflexivity |].
  fw_simpl. rewrite <- ?app_assoc. repeat split; reflexivity.
Qed.

Lemma cell_plot_final_run : forall w,
  exists w',
    cell_plot_final w = Ok tt w' /\
    vars w' = set_z_np (to_numpy (v_z (vars w))) (vars w) /\
    trace (fw w') = trace (fw w) ++ ok_entries [EvToNumpy; EvFigure; EvHist2d; EvShow] /\
    theta (fw w') = theta (fw w) /\
    shown (fw w') = shown (fw w) ++ [[AHist2d (to_numpy (v_z (vars w)))]].
Proof.
  intros w.
  unfold cell_plot_final, plot_samples, plt_figure, plt_draw, plt_show, bind, get_var, assign.
  run HNR. eexists; split; [reflexivity |].
  fw_simpl. rewrite <- ?app_assoc. repeat split; reflexivity.
Qed.

Lemma cell_plot_initial_run : forall w,
  exists w',
    cell_plot_initial w = Ok tt w' /\
    same_constants (vars w) (vars w') /\
    theta (fw w') = theta (fw w) /\ next_id (fw w') = next_id (fw w).
Proof.
  intros w.
  unfold cell_plot_initial, plot_samples, plt_figure, plt_draw, plt_show, bind, get_var, assign.
  run HNR.
  destruct (torch_meshgrid _ _) as [xx yy].
  run HNR. eexists; split; [reflexivity |].
  unfold same_constants. fw_simpl. repeat split; reflexivity.
Qed.

(** One pass of the assembly loop. *)
Lemma build_flow_run : forall i w,
  exists w',
    build_flow (Z.of_nat i) w = Ok tt w' /\
    vars w' = set_flows (v_flows (vars w)
                         ++ [mkMaskedAffineFlow (mask_of (v_b (vars w)) i)
                               (mkFCN (next_id (fw w)) [2; 8; 2])
                               (mkFCN (S (next_id (fw w))) [2; 8; 2])]) (vars w) /\
    next_id (fw w') = S (S (next_id (fw w))).
Proof.
  intros i w. unfold build_flow, bind. run HNR.
  assert (E : (Z.of_nat i mod 2 =? 0) = Nat.even i).
  { now rewrite <- Zeven_mod, even_of_nat. }
  rewrite E. unfold mask_of, get_var, assign.
  destruct (Nat.even i); run HNR;
    (eexists; split; [reflexivity |]); fw_simpl; split; reflexivity.
Qed.

End CellsRun.

(** ** Cell 2 *)

Section ModelRun.
Context {F : Framework}.
Hypothesis HNR : NoRaise F.

Lemma expected_flows_succ : forall b id0 k,
  expected_flows b id0 (S k) = expected_flows b id0 k ++ [expected_flow b id0 k].
Proof. intros. unfold expected_flows. now rewrite seq_S, map_app. Qed.

Lemma expected_flows_length : forall b id0 k, List.length (expected_flows b id0 k) = k.
Proof. intros. unfold expected_flows. now rewrite length_map, length_seq. Qed.

Lemma expected_flows_nth : forall b id0 k i, (i < k)%nat ->
  nth_error (expected_flows b id0 k) i = Some (expected_flow b id0 i).
Proof.
  intros b id0 k i Hi. unfold expected_flows.
  rewrite nth_error_map, nth_error_seq.
  destruct (Nat.ltb_spec i k); [reflexivity | lia].
Qed.

Lemma network_ids_expected : forall b id0 k,
  network_ids (expected_flows b id0 k) = seq id0 (2 * k).
Proof.
  intros b id0 k. induction k as [| k IH].
  - reflexivity.
  - rewrite expected_flows_succ. unfold network_ids in *.
    rewrite flat_map_app, IH. simpl flat_map.
    replace (2 * S k)%nat with (2 * k + 2)%nat by lia.
    rewrite seq_app. simpl. repeat f_equal; lia.
Qed.

(** The assembly loop after [n] passes. *)
Lemma assembly_loop_run : forall n w0,
  exists w,
    for_each (range_from 0 n) build_flow w0 = Ok tt w /\
    vars w = set_flows (v_flows (vars w0)
                        ++ expected_flows (v_b (vars w0)) (next_id (fw w0)) n) (vars w0) /\
    next_id (fw w) = (next_id (fw w0) + 2 * n)%nat.
Proof.
  intros n w0.
  apply (for_each_inv build_flow
           (fun k w =>
              vars w = set_flows (v_flows (vars w0)
                                  ++ expected_flows (v_b (vars w0)) (next_id (fw w0)) k)
                         (vars w0)
              /\ next_id (fw w) = (next_id (fw w0) + 2 * k)%nat)).
  - intros k w _ [Hv Hid]. rewrite Z.add_0_l.
    destruct (build_flow_run HNR k w) as (w' & E & Hv' & Hid').
    exists w'. split; [assumption |]. split; [| lia].
    rewrite Hv', Hv, Hid, expected_flows_succ. fw_simpl.
    unfold expected_flow. rewrite <- app_assoc, Nat.add_1_r. reflexivity.
  - split.
    + simpl. rewrite app_nil_r. now destruct (vars w0).
    + lia.
Qed.

(** The variables cell 2 leaves behind. *)
Lemma cell_model_run : forall w,
  let flows := expected_flows [0; 1] (next_id (fw w)) 8 in
  let prior := mkTwoModes 2 (1 # 10) in
  let q0 := mkConstDiagGaussian (np_zeros 2) (np_ones 2) in
  let device := if cuda_is_available && enable_cuda then Cuda else Cpu in
  exists w',
    cell_model w = Ok tt w' /\
    vars w' = set_device device
                (set_nfm (mkNormalizingFlow prior q0 flows)
                   (set_q0 q0 (set_prior prior (set_flows flows (set_b [0; 1] (vars w)))))) /\
    next_id (fw w') = (next_id (fw w) + 16)%nat.
Proof.
  intros w flows prior q0 device.
  unfold cell_model, nfm_to, bind, get_var, assign. run HNR.
  change (range K) with (range_from 0 8).
  match goal with
  | |- context [for_each _ build_flow ?w1] =>
      destruct (assembly_loop_run 8 w1) as (w2 & E & Hv & Hid)
  end.
  rewrite E. revert Hv Hid. fw_simpl. intros Hv Hid. run HNR.
  eexists; split; [reflexivity |].
  fw_simpl. rewrite Hv. fw_simpl. split; [reflexivity | exact Hid].
Qed.

End ModelRun.

(** ** Exceptions *)

Section Propagation.
Context {F : Framework}.

Lemma propagating_ret : forall (A : Type) (a : A), propagating (ret a).
Proof. intros A a w. exists []. simpl. now rewrite app_nil_r. Qed.

Lemma propagating_get_var : forall (A : Type) (p : Vars -> A), propagating (get_var p).
Proof. intros A p w. exists []. simpl. now rewrite app_nil_r. Qed.

Lemma propagating_assign : forall f, propagating (assign f).
Proof. intros f w. exists []. simpl. now rewrite app_nil_r. Qed.

Lemma propagating_call : forall (A : Type) ev (f : Fw -> A * Fw),
  (forall s, trace (snd (f s)) = trace s) -> propagating (call ev f).
Proof.
  intros A ev f Hf w. unfold call.
  destruct (raises (List.length (trace (fw w))) ev) as [e |] eqn:E.
  - exists [], ev. simpl. rewrite app_nil_r. split; [reflexivity | exact E].
  - specialize (Hf (fw w)). destruct (f (fw w)) as [a s]. simpl in *.
    exists [ev]. now rewrite Hf.
Qed.

Lemma propagating_pure_call : forall (A : Type) ev (a : A), propagating (pure_call ev a).
Proof. intros. apply propagating_call. reflexivity. Qed.

Lemma propagating_bind : forall (A B : Type) (m : M A) (k : A -> M B),
  propagating m -> (forall a, propagating (k a)) -> propagating (bind m k).
Proof.
  intros A B m k Hm Hk w. unfold bind.
  specialize (Hm w). destruct (m w) as [a w1 | e w1].
  - destruct Hm as [l1 H1]. specialize (Hk a w1).
    destruct (k a w1) as [b w2 | e w2].
    + destruct Hk as [l2 H2]. exists (l1 ++ l2).
      unfold ok_entries in *. now rewrite H2, H1, map_app, app_assoc.
    + destruct Hk as (l2 & ev & H2 & Hr). exists (l1 ++ l2), ev.
      unfold ok_entries in *. rewrite H1 in H2, Hr.
      rewrite map_app, !app_assoc. rewrite <- !app_assoc in H2.
      rewrite <- app_assoc in Hr.
      split; [now rewrite H2, <- !app_assoc | now rewrite <- app_assoc].
  - exact Hm.
Qed.

Lemma propagating_for_each : forall l (body : Z -> M unit),
  (forall it, propagating (body it)) -> propagating (for_each l body).
Proof.
  intros l body Hb. induction l as [| it l IH]; simpl.
  - apply propagating_ret.
  - apply propagating_bind; [apply Hb | intros _; exact IH].
Qed.

(** ** The variables the loop leaves alone *)









End Propagation.

(** Discharges [propagating m] for a statement [m] built from calls,
    assignments, sequencing, branches and loops. *)
Ltac propagate :=
  repeat first
    [ apply propagating_ret | apply propagating_get_var | apply propagating_assign
    | apply propagating_pure_call
    | apply propagating_for_each; intros ?
    | apply propagating_bind; [| intros ? ]
    | match goal with
      | |- propagating (if ?c then _ else _) => destruct c
      | |- propagating (match ?p with pair _ _ => _ end) => destruct p
      | |- propagating (call _ _) =>
          apply propagating_call; intros ?;
          repeat match goal with
                 | |- context [match ?p with pair _ _ => _ end] => destruct p
                 end; reflexivity
      end ].

(** ** The iteration that ends a prefix of the loop *)

Section LastCheckpoint.
Context {F : Framework}.
Hypothesis HNR : NoRaise F.

Lemma checkpoint_draw_constants : forall v v' th g,
  same_constants v v' -> checkpoint_draw v' th g = checkpoint_draw v th g.
Proof.
  intros v v' th g (_ & _ & _ & _ & Hn & Hd & _). unfold checkpoint_draw.
  now rewrite Hn, Hd.
Qed.

(** A prefix of the loop that ends with a checkpoint iteration. *)
Lemma checkpoint_prefix_run : forall n w0,
  is_checkpoint (Z.of_nat n) = true ->
  exists w1 w2,
    for_each (range_from 0 n) iteration w0 = Ok tt w1 /\
    iteration (Z.of_nat n) w1 = Ok tt w2 /\
    for_each (range_from 0 (S n)) iteration w0 = Ok tt w2 /\
    same_constants (vars w0) (vars w2) /\
    let d := v_device (vars w0) in
    let g := checkpoint_gen d (fwd_gen (train_forward w1)) in
    let rc := checkpoint_draw (vars w0) (theta (fw w2)) g in
    v_z (vars w2) = fwd_z rc /\
    v_z_np (vars w2) = to_numpy (fwd_z rc) /\
    dev_gen d (fw w2) = fwd_gen rc /\
    exists pre, shown (fw w2) = pre ++ [[AHist2d (to_numpy (fwd_z rc))]].
Proof.
  intros n w0 Hck.
  destruct (iterations_run HNR n w0) as (w1 & E1 & Hc1 & _).
  destruct (iteration_run HNR (Z.of_nat n) w1)
    as (w2 & E2 & Hc2 & _ & Hth & _ & _ & _ & H).
  rewrite Hck in H. destruct H as (Hz & Hznp & _ & _ & _ & Hgen & Hs).
  exists w1, w2.
  split; [exact E1 |]. split; [exact E2 |].
  split.
  { rewrite range_from_snoc, for_each_app. erewrite bind_run by exact E1.
    simpl. unfold bind. rewrite E2. reflexivity. }
  split; [eapply same_constants_trans; eassumption |].
  rewrite <- Hth in Hz, Hznp, Hgen, Hs.
  rewrite (checkpoint_draw_constants _ _ Hc1) in Hz, Hznp, Hgen, Hs.
  destruct Hc1 as (_ & _ & _ & _ & _ & Hd & _). rewrite Hd in Hz, Hznp, Hgen, Hs.
  cbv zeta. repeat split; try assumption.
  eexists. exact Hs.
Qed.

(** Cell 4 up to the end of the loop: the histories hold the entries of
    the loop's checkpoints and nothing else. *)
Lemma loop_histories : forall w,
  exists w0 w',
    train_setup w = Ok tt w0 /\ train_loop w0 = Ok tt w' /\
    (train_setup ;; train_loop) w = Ok tt w' /\
    v_loss_hist (vars w') = map (loss_entry w0) (checkpoints (Z.to_nat max_iter)) /\
    v_log_q_hist (vars w') = map (log_q_entry w0) (checkpoints (Z.to_nat max_iter)) /\
    v_log_p_hist (vars w') = map (log_p_entry w0) (checkpoints (Z.to_nat max_iter)).
Proof.
  intros w.
  destruct (train_setup_run HNR w) as (w0 & E0 & Hv0 & _).
  destruct (iterations_run HNR (Z.to_nat max_iter) w0)
    as (w1 & E1 & _ & _ & _ & Hl & Hq & Hp & _).
  exists w0, w1. split; [exact E0 |]. split; [exact E1 |].
  split; [erewrite bind_run by exact E0; exact E1 |].
  rewrite Hl, Hq, Hp, Hv0. fw_simpl. repeat split; reflexivity.
Qed.

End LastCheckpoint.

(** ** The whole notebook *)

Section NotebookRun.
Context {F : Framework}.
Hypothesis HNR : NoRaise F.

(** When every call returns, the notebook runs all five cells to the end;
    the model it trained is the one cell 2 assembled. *)
Lemma notebook_returns : forall w,
  exists w',
    notebook w = Ok tt w' /\
    v_flows (vars w') = expected_flows [0; 1] (next_id (fw w)) 8 /\
    List.length (v_loss_hist (vars w')) = 40%nat.
Proof.
  intros w. unfold notebook, cell_train.
  destruct (cell_model_run HNR w) as (w1 & E1 & Hv1 & _).
  destruct (cell_plot_initial_run HNR w1) as (w2 & E2 & Hc2 & _).
  destruct (train_setup_run HNR w2) as (w3 & E3 & Hv3 & _).
  destruct (iterations_run HNR (Z.to_nat max_iter) w3)
    as (w4 & E4 & Hc4 & _ & _ & Hl & _).
  destruct (plot_hists_run HNR w4) as (w5 & E5 & Hv5 & _).
  destruct (cell_plot_final_run HNR w5) as (w6 & E6 & Hv6 & _).
  exists w6. split; [| split].
  - erewrite bind_run by exact E1. erewrite bind_run by exact E2.
    erewrite bind_run.
    2: { erewrite bind_run by exact E3. erewrite bind_run by exact E4. exact E5. }
    exact E6.
  - rewrite Hv6, Hv5. fw_simpl.
    destruct Hc4 as (_ & Hf4 & _). rewrite Hf4, Hv3. fw_simpl.
    destruct Hc2 as (_ & Hf2 & _). rewrite Hf2, Hv1. reflexivity.
  - rewrite Hv6, Hv5. fw_simpl. rewrite Hl, Hv3. fw_simpl. cbn [app].
    apply Nat2Z.inj. rewrite length_map, checkpoints_length, Z2Nat.id by discriminate.
    reflexivity.
Qed.

End NotebookRun.

(** * Properties of the notebook *)

Lemma toy_never_NoRaise : NoRaise (toy never).
Proof. intros n ev. reflexivity. Qed.

(** ** Annealing schedule *)


(** The same schedule as NumPy computes it in binary64, checked on every
    iteration of the loop: the weight does not decrease from one iteration to
    the next, is below 1 before iteration 9900 and is exactly 1 from there
    on. *)
Lemma anneal_weight64_schedule :
  forall it, 0 <= it < max_iter ->
    PrimFloat.leb (anneal_weight64 it) (anneal_weight64 (it + 1)) = true /\
    (if it <? 9900 then PrimFloat.ltb (anneal_weight64 it) 1%float
     else PrimFloat.eqb (anneal_weight64 it) 1%float) = true.
Proof.
  intros it Hit.
  apply andb_true_iff.
  apply (@forall_range_spec
           (fun it => PrimFloat.leb (anneal_weight64 it) (anneal_weight64 (it + 1))
                      && (if it <? 9900 then PrimFloat.ltb (anneal_weight64 it) 1%float
                          else PrimFloat.eqb (anneal_weight64 it) 1%float))
           (Z.to_nat max_iter) 0).
  - vm_compute. reflexivity.
  - rewrite Z2Nat.id by discriminate. lia.
Qed.

(** At iteration 9899 the binary64 weight is still below 1, at iteration 9900
    it is 1. *)
Lemma anneal_weight64_schedule_witness :
  0 <= 9899 < max_iter /\
  PrimFloat.ltb (anneal_weight64 9899) 1%float = true /\
  PrimFloat.eqb (anneal_weight64 (9899 + 1)) 1%float = true.
Proof.
  split; [split; [discriminate | reflexivity] |].
  destruct (anneal_weight64_schedule (it := 9899)) as [_ H];
    [split; [discriminate | reflexivity] |].
  split; [exact H | vm_compute; reflexivity].
Defined.

(** ** The loss *)

(** C1 (counterexample): in the toy framework the forward pass returns mean
    log-densities -2 and -3; the loss of iteration 0 is the [float32] number
    nearest to -2 + 0.01 * 3 = -1.97, which is no convex combination of -2
    and -3. *)
Lemma loss_not_convex_combination :
  returned (train_step 0 toy_before_loop) = Some tt /\
  exists loss mean_log_q mean_log_p,
    SF2Q (tensor_item (v_loss (vars (final_world (train_step 0 toy_before_loop)))))
    = Some loss /\
    SF2Q (tensor_item (v_mean_log_q (vars (final_world (train_step 0 toy_before_loop)))))
    = Some mean_log_q /\
    SF2Q (tensor_item (v_mean_log_p (vars (final_world (train_step 0 toy_before_loop)))))
    = Some mean_log_p /\
    ~ convex_combination loss mean_log_q mean_log_p.
Proof.
  split; [vm_compute; reflexivity |].
  exists (-16525558 # 8388608)%Q, (-8388608 # 4194304)%Q, (-12582912 # 4194304)%Q.
  split; [vm_compute; reflexivity |].
  split; [vm_compute; reflexivity |].
  split; [vm_compute; reflexivity |].
  unfold convex_combination. intros [l (H0 & H1 & H)]. lra.
Qed.

(** C1: in every iteration the loss handed to backpropagation is the
    tensor [mean_log_q - w * mean_log_p], where the two means are those of
    the forward pass of that iteration; with annealing [w] is
    [min(1, 0.01 + it / 10000)] as NumPy computes it in binary64, a function
    of the iteration count alone, without annealing there is no weight.  The
    number this tensor holds is computed in [float32]: the weight is rounded
    to [float32], then the product, then the difference.  In every iteration
    of the loop the binary64 weight is within [2^-53] of the exact
    [min(1, 0.01 + it / 10000)] and lies between 0.01 and 1; from iteration
    9900 on it is 1 and the loss is the [float32] difference of the two
    means. *)
Theorem loss_is_annealed_difference : forall F : Framework, NoRaise F ->
  (forall anneal it w, exists w',
      train_step_with anneal it w = Ok tt w' /\
      v_mean_log_q (vars w') = torch_mean (fwd_log_q (train_forward w)) /\
      v_mean_log_p (vars w') = torch_mean (fwd_log_p (train_forward w)) /\
      v_loss (vars w')
      = (if anneal
         then tensor_sub (v_mean_log_q (vars w'))
                (tensor_rmul (anneal_weight64 it) (v_mean_log_p (vars w')))
         else tensor_sub (v_mean_log_q (vars w')) (v_mean_log_p (vars w'))) /\
      grads (fw w') = backward (v_loss (vars w')) (zero_grad (grads (fw w))) /\
      tensor_item (v_loss (vars w'))
      = (if anneal
         then f32_sub (tensor_item (v_mean_log_q (vars w')))
                (f32_mul (f32_of_f64 (anneal_weight64 it))
                   (tensor_item (v_mean_log_p (vars w'))))
         else f32_sub (tensor_item (v_mean_log_q (vars w')))
                (tensor_item (v_mean_log_p (vars w'))))) /\
  (forall it, 0 <= it < max_iter ->
      exists w : Q,
        SF2Q (Prim2SF (anneal_weight64 it)) = Some w /\
        (Qabs (w - Qmin 1 ((1 # 100) + inject_Z it / inject_Z 10000))
         <= 1 # 9007199254740992)%Q /\
        ((1 # 100) <= w)%Q /\ (w <= 1)%Q) /\
  (forall it q p, 9900 <= it < max_iter ->
      SpecFloat.valid_binary prec32 emax32 p = true ->
      f32_sub q (f32_mul (f32_of_f64 (anneal_weight64 it)) p) = f32_sub q p).
Proof.
  intros F HNR. split; [| split].
  - intros anneal it w.
    destruct (train_step_with_run HNR anneal it w) as (w' & E & Hv & _ & _ & _ & Hg & _).
    exists w'. split; [exact E |].
    rewrite Hg, Hv. fw_simpl. unfold loss_tensor.
    destruct anneal; repeat split; try reflexivity.
    + now rewrite tensor_item_sub, tensor_item_rmul.
    + apply tensor_item_sub.
  - intros it Hit. pose proof (anneal_weight64_close_spec Hit) as H.
    unfold anneal_weight64_close in H.
    destruct (SF2Q (Prim2SF (anneal_weight64 it))) as [w |]; [| discriminate H].
    apply andb_true_iff in H as [H H1]. apply andb_true_iff in H as [Hc H0].
    apply Qle_bool_iff in Hc, H0, H1.
    exists w. rewrite anneal_weight_unfold in Hc. repeat split; assumption.
  - intros it q p Hit Hp. exact (@loss_value_saturated it q p Hit Hp).
Qed.

(** C1 (witness): the toy framework never raises; there the loss of
    iteration 0, annealed, from the means -2 and -3 is
    [-16525558 * 2^-23], the [float32] number nearest to -1.97. *)
Lemma loss_is_annealed_difference_witness :
  NoRaise (toy never) /\
  exists w',
    train_step_with true 0 toy_before_loop = Ok tt w' /\
    tensor_item (v_loss (vars w')) = S754_finite true 16525558 (-23).
Proof.
  split; [exact toy_never_NoRaise |].
  destruct (loss_is_annealed_difference toy_never_NoRaise) as [H _].
  destruct (H true 0 toy_before_loop) as (w' & E & Hq & Hp & _ & _ & Hv).
  exists w'. split; [exact E |].
  rewrite Hv, Hq, Hp. vm_compute. reflexivity.
Defined.

(** ** Model assembly *)

(** C2: cell 2 builds exactly [K = 8] coupling layers; the layer at position
    [i] has mask [0, 1] when [i] is even and [1, 0] when [i] is odd, and its
    scale and translation networks are two networks with layer sizes
    [2, 8, 2] constructed in that pass of the loop: the sixteen networks are
    pairwise distinct objects. *)
Theorem model_assembly_layers : forall F : Framework, NoRaise F -> forall w : World,
  exists w',
    cell_model w = Ok tt w' /\
    Z.of_nat (List.length (v_flows (vars w'))) = K /\
    (forall i, (i < 8)%nat ->
       exists f,
         nth_error (v_flows (vars w')) i = Some f /\
         maf_b f = (if Nat.even i then [0; 1] else [1; 0]) /\
         maf_s f = mkFCN (next_id (fw w) + 2 * i) [2; 8; 2] /\
         maf_t f = mkFCN (next_id (fw w) + 2 * i + 1) [2; 8; 2]) /\
    NoDup (network_ids (v_flows (vars w'))) /\
    nf_flows (v_nfm (vars w')) = v_flows (vars w').
Proof.
  intros F HNR w.
  destruct (cell_model_run HNR w) as (w' & E & Hv & _).
  exists w'. split; [exact E |]. rewrite Hv. fw_simpl.
  split; [now rewrite expected_flows_length |].
  split; [| split].
  - intros i Hi. exists (expected_flow [0; 1] (next_id (fw w)) i).
    split; [now apply expected_flows_nth |].
    unfold expected_flow, mask_of. cbn [maf_b maf_s maf_t].
    destruct (Nat.even i); repeat split; reflexivity.
  - rewrite network_ids_expected. apply seq_NoDup.
  - reflexivity.
Qed.

(** C2 (witness): the toy framework never raises; there the first layer has
    mask [0, 1]. *)
Lemma model_assembly_layers_witness :
  NoRaise (toy never) /\
  exists w',
    cell_model (toy_world never) = Ok tt w' /\
    Z.of_nat (List.length (v_flows (vars w'))) = K.
Proof.
  split; [exact toy_never_NoRaise |].
  destruct (model_assembly_layers toy_never_NoRaise (toy_world never))
    as (w' & E & HK & _).
  exists w'. split; assumption.
Defined.

(** C9: the base distribution [q0] that cell 2 constructs and hands to the
    model is a 2-dimensional diagonal Gaussian with mean 0 and standard
    deviation 1 in both dimensions: a draw is the standard normal noise
    itself and the log-density at [z] is [-ln(2 pi) - |z|^2 / 2]. *)
Theorem base_distribution_standard_gaussian :
  forall F : Framework, NoRaise F -> forall w : World,
  exists w',
    cell_model w = Ok tt w' /\
    nf_q0 (v_nfm (vars w')) = v_q0 (vars w') /\
    dim (v_q0 (vars w')) = 2%nat /\
    loc (v_q0 (vars w')) = [0%Q; 0%Q] /\
    scale (v_q0 (vars w')) = [1%Q; 1%Q] /\
    (forall e0 e1, Forall2 Qeq (sample (v_q0 (vars w')) [e0; e1]) [e0; e1]) /\
    (forall z0 z1,
       log_prob (v_q0 (vars w')) [z0; z1]
       = (- ln (2 * PI) - (Q2R z0 * Q2R z0 + Q2R z1 * Q2R z1) / 2)%R).
Proof.
  intros F HNR w.
  destruct (cell_model_run HNR w) as (w' & E & Hv & _).
  exists w'. split; [exact E |]. rewrite Hv. fw_simpl.
  repeat split.
  - intros e0 e1. cbn. repeat constructor; ring.
  - intros z0 z1. cbn. unfold gauss_log_density.
    replace (Q2R 0) with 0%R by (unfold Q2R; simpl; Lra.lra).
    replace (Q2R 1) with 1%R by (unfold Q2R; simpl; Lra.lra).
    rewrite ln_1. field.
Qed.

(** C9 (witness): in the toy framework [q0] has mean [0, 0]. *)
Lemma base_distribution_standard_gaussian_witness :
  NoRaise (toy never) /\
  exists w',
    cell_model (toy_world never) = Ok tt w' /\ loc (v_q0 (vars w')) = [0%Q; 0%Q].
Proof.
  split; [exact toy_never_NoRaise |].
  destruct (base_distribution_standard_gaussian toy_never_NoRaise (toy_world never))
    as (w' & E & _ & _ & Hloc & _).
  exists w'. split; assumption.
Defined.

(** ** The training loop *)

(** C4: the loop runs to its end after exactly [max_iter = 20000]
    iterations, with 20000 optimizer steps, and the calls of iteration [it]
    are, in this order: zeroing the gradients, the forward pass with
    [num_samples = 128], the loss (two means, the annealing weight, the
    product, the difference), backpropagation, one optimizer step, followed
    by the calls of a checkpoint when [(it + 1) % 500 == 0].  The parameters
    after an iteration are those the Adam step computes from the gradient of
    that loss, added to zeroed gradients. *)
Theorem training_loop_iterations : forall F : Framework, NoRaise F -> forall w : World,
  Z.of_nat (List.length (tqdm (range max_iter))) = 20000 /\
  (exists w',
     train_loop w = Ok tt w' /\
     trace (fw w')
     = trace (fw w) ++ ok_entries (flat_map iteration_events (tqdm (range max_iter)))) /\
  Z.of_nat (List.length (filter is_step (flat_map iteration_events (tqdm (range max_iter)))))
  = 20000 /\
  (forall it, exists rest,
     iteration_events it
     = [EvZeroGrad; EvForward 128; EvMean; EvMean; EvNpMin; EvRmul; EvSub;
        EvBackward; EvStep] ++ rest) /\
  (forall it w0, exists w1,
     iteration it w0 = Ok tt w1 /\
     let r := train_forward w0 in
     let loss := loss_tensor annealing it (torch_mean (fwd_log_q r))
                   (torch_mean (fwd_log_p r)) in
     theta (fw w1)
     = fst (adam_step (v_optimizer (vars w0)) (theta (fw w0))
              (backward loss (zero_grad (grads (fw w0)))) (opt_state (fw w0)))).
Proof.
  intros F HNR w. split; [| split; [| split; [| split]]].
  - unfold tqdm, range. rewrite range_from_length. reflexivity.
  - destruct (iterations_run HNR (Z.to_nat max_iter) w) as (w' & E & _ & _ & Ht & _).
    exists w'. split; assumption.
  - rewrite steps_of_iterations. unfold tqdm, range. rewrite range_from_length. reflexivity.
  - intros it. eexists. reflexivity.
  - intros it w0.
    destruct (iteration_run HNR it w0) as (w1 & E & _ & _ & Hth & _).
    exists w1. split; assumption.
Qed.

(** C4 (witness): the toy framework never raises; there the loop runs to
    its end. *)
Lemma training_loop_iterations_witness :
  NoRaise (toy never) /\
  exists w', train_loop toy_before_loop = Ok tt w'.
Proof.
  split; [exact toy_never_NoRaise |].
  destruct (training_loop_iterations toy_never_NoRaise toy_before_loop)
    as (_ & (w' & E & _) & _).
  exists w'. exact E.
Defined.

(** C5: an iteration appends one value to each of [loss_hist],
    [log_q_hist] and [log_p_hist] exactly when [(it + 1) % 500 == 0], and
    the values appended are the numbers of [loss], [mean_log_q] and
    [mean_log_p] that the training step of that iteration computed; otherwise
    it leaves the three arrays alone.  After any number [n] of iterations the
    three arrays have the same length [n / 500]; when the loop ends each has
    40 entries, and entry [j] is the metric of iteration [500 * (j + 1) - 1]
    of this run. *)
Theorem metric_histories_checkpointed : forall F : Framework, NoRaise F ->
  (forall it w, exists w',
     iteration it w = Ok tt w' /\
     v_loss (vars w')
     = loss_tensor annealing it (v_mean_log_q (vars w')) (v_mean_log_p (vars w')) /\
     v_mean_log_q (vars w') = torch_mean (fwd_log_q (train_forward w)) /\
     v_mean_log_p (vars w') = torch_mean (fwd_log_p (train_forward w)) /\
     if (it + 1) mod show_iter =? 0 then
       v_loss_hist (vars w')
       = v_loss_hist (vars w) ++ [f64_of_f32 (tensor_item (v_loss (vars w')))] /\
       v_log_q_hist (vars w')
       = v_log_q_hist (vars w) ++ [f64_of_f32 (tensor_item (v_mean_log_q (vars w')))] /\
       v_log_p_hist (vars w')
       = v_log_p_hist (vars w) ++ [f64_of_f32 (tensor_item (v_mean_log_p (vars w')))]
     else
       v_loss_hist (vars w') = v_loss_hist (vars w) /\
       v_log_q_hist (vars w') = v_log_q_hist (vars w) /\
       v_log_p_hist (vars w') = v_log_p_hist (vars w)) /\
  (forall w n, exists w',
     (train_setup ;; for_each (range_from 0 n) iteration) w = Ok tt w' /\
     Z.of_nat (List.length (v_loss_hist (vars w'))) = Z.of_nat n / show_iter /\
     Z.of_nat (List.length (v_log_q_hist (vars w'))) = Z.of_nat n / show_iter /\
     Z.of_nat (List.length (v_log_p_hist (vars w'))) = Z.of_nat n / show_iter) /\
  (forall w, exists w0 w',
     train_setup w = Ok tt w0 /\ train_loop w0 = Ok tt w' /\
     List.length (v_loss_hist (vars w')) = 40%nat /\
     List.length (v_log_q_hist (vars w')) = 40%nat /\
     List.length (v_log_p_hist (vars w')) = 40%nat /\
     forall j, (j < 40)%nat ->
       let it := 500 * (Z.of_nat j + 1) - 1 in
       let wj := loop_state w0 (Z.to_nat it) in
       is_checkpoint it = true /\
       nth_error (v_loss_hist (vars w')) j
       = Some (f64_of_f32 (tensor_item (step_loss it wj))) /\
       nth_error (v_log_q_hist (vars w')) j
       = Some (f64_of_f32 (tensor_item (step_mean_log_q wj))) /\
       nth_error (v_log_p_hist (vars w')) j
       = Some (f64_of_f32 (tensor_item (step_mean_log_p wj)))).
Proof.
  intros F HNR. split; [| split].
  - intros it w.
    destruct (iteration_run HNR it w) as (w' & E & _ & _ & _ & _ & _ & _ & Hck).
    destruct (iteration_assigns HNR it w) as (w'' & E' & _ & _ & _ & Hmq & Hmp & Hl & _).
    rewrite E in E'. injection E' as <-.
    exists w'. split; [exact E |].
    rewrite Hl, Hmq, Hmp. repeat split.
    unfold is_checkpoint in Hck. destruct ((it + 1) mod show_iter =? 0).
    + destruct Hck as (_ & _ & Hlh & Hqh & Hph & _). repeat split; assumption.
    + destruct Hck as (_ & _ & Hlh & Hqh & Hph & _). repeat split; assumption.
  - intros w n.
    destruct (train_setup_run HNR w) as (w0 & E0 & Hv0 & _).
    destruct (iterations_run HNR n w0) as (w1 & E1 & _ & _ & _ & Hl & Hq & Hp & _).
    exists w1. split; [erewrite bind_run by exact E0; exact E1 |].
    rewrite Hl, Hq, Hp, Hv0. fw_simpl. cbn [app].
    rewrite !length_map, checkpoints_length. repeat split; reflexivity.
  - intros w.
    destruct (loop_histories HNR w) as (w0 & w' & E0 & E1 & _ & Hl & Hq & Hp).
    exists w0, w'. split; [exact E0 |]. split; [exact E1 |].
    assert (L : forall (A : Type) (f : Z -> A),
              List.length (map f (checkpoints (Z.to_nat max_iter))) = 40%nat).
    { intros A f. apply Nat2Z.inj.
      rewrite length_map, checkpoints_length, Z2Nat.id by discriminate. reflexivity. }
    rewrite Hl, Hq, Hp, !L.
    split; [reflexivity |]. split; [reflexivity |]. split; [reflexivity |].
    intros j Hj. cbv zeta.
    rewrite !checkpoints_nth by exact Hj.
    split; [| repeat split; reflexivity].
    apply is_checkpoint_spec. unfold show_iter.
    replace (500 * (Z.of_nat j + 1) - 1 + 1) with ((Z.of_nat j + 1) * 500) by lia.
    apply Z.mod_mul. discriminate.
Qed.

(** C5 (witness): the toy framework never raises; there the loss history
    has 40 entries when the loop ends, and its first entry, recorded at
    iteration 499, is the [float64] number of the annealed loss
    -2 + 0.0599 * 3. *)
Lemma metric_histories_checkpointed_witness :
  NoRaise (toy never) /\
  exists w0 w',
    train_setup (toy_world never) = Ok tt w0 /\ train_loop w0 = Ok tt w' /\
    List.length (v_loss_hist (vars w')) = 40%nat /\
    nth_error (v_loss_hist (vars w')) 0
    = Some (f64_of_f32 (loss_value true 499 (f32_of_Z (-2)) (f32_of_Z (-3)))).
Proof.
  split; [exact toy_never_NoRaise |].
  destruct (metric_histories_checkpointed toy_never_NoRaise) as (_ & _ & H).
  destruct (H (toy_world never)) as (w0 & w' & E0 & E1 & L & _ & _ & Hn).
  exists w0, w'. split; [exact E0 |]. split; [exact E1 |]. split; [exact L |].
  destruct (Hn 0%nat) as (_ & Hl & _); [repeat constructor |].
  rewrite Hl. reflexivity.
Defined.

(** ** The final plot *)

(** C6 (counterexample): in the toy run, no call made after the training
    loop has ended is a forward pass of the model: the notebook does not
    sample again. *)
Lemma no_resampling_after_training :
  exists w1 w2 : @World (toy never),
    train_loop toy_before_loop = Ok tt w1 /\
    (plot_hists ;; cell_plot_final) w1 = Ok tt w2 /\
    exists l, trace (fw w2) = trace (fw w1) ++ l /\ ~ draws l.
Proof.
  destruct (iterations_run toy_never_NoRaise (Z.to_nat max_iter) toy_before_loop)
    as (w1 & E1 & _).
  destruct (plot_hists_run toy_never_NoRaise w1) as (w2 & E2 & _ & Ht2 & _).
  destruct (cell_plot_final_run toy_never_NoRaise w2) as (w3 & E3 & _ & Ht3 & _).
  exists w1, w3. split; [exact E1 |]. split.
  - erewrite bind_run by exact E2. exact E3.
  - eexists. split.
    + rewrite Ht3, Ht2, <- app_assoc. reflexivity.
    + intros (n & r & Hin). simpl in Hin.
      repeat (destruct Hin as [Hin | Hin]; [discriminate |]). contradiction.
Qed.

(** C6: after the training loop the notebook draws no new samples and
    changes no parameter: cell 5 shows again the samples [z] of the loop's
    last checkpoint (iteration 19999), which that checkpoint drew, after the
    last optimizer step, from the model with its final parameters (on a CUDA
    device from the generator state that seed 0 gives), and which the loop's
    last figure already shows; the only other figure drawn after the loop is
    the plot of the three histories. *)
Theorem final_plot_shows_last_checkpoint :
  forall F : Framework, NoRaise F -> forall w : World,
  exists w1 w2 w3,
    train_loop w = Ok tt w1 /\ plot_hists w1 = Ok tt w2 /\ cell_plot_final w2 = Ok tt w3 /\
    trace (fw w3)
    = trace (fw w1)
      ++ ok_entries [EvFigure; EvPlot "loss"; EvPlot "log_q"; EvPlot "log_p"; EvLegend;
                     EvShow; EvToNumpy; EvFigure; EvHist2d; EvShow] /\
    theta (fw w3) = theta (fw w1) /\
    (exists g,
       v_z (vars w1) = fwd_z (checkpoint_draw (vars w) (theta (fw w1)) g) /\
       (v_device (vars w) = Cuda -> g = manual_seed 0)) /\
    (exists pre, shown (fw w1) = pre ++ [[AHist2d (to_numpy (v_z (vars w1)))]]) /\
    v_z_np (vars w3) = to_numpy (v_z (vars w1)) /\
    shown (fw w3)
    = shown (fw w1)
      ++ [[ALine (v_loss_hist (vars w1)) "loss"; ALine (v_log_q_hist (vars w1)) "log_q";
           ALine (v_log_p_hist (vars w1)) "log_p"; ALegend];
          [AHist2d (to_numpy (v_z (vars w1)))]].
Proof.
  intros F HNR w.
  destruct (checkpoint_prefix_run HNR (Z.to_nat 19999) w)
    as (w0 & w1 & _ & _ & E1 & _ & Hz & _ & _ & pre & Hs1).
  { rewrite Z2Nat.id by discriminate. reflexivity. }
  rewrite <- Z2Nat.inj_succ in E1 by discriminate.
  destruct (plot_hists_run HNR w1) as (w2 & E2 & Hv2 & Ht2 & Hth2 & Hs2).
  destruct (cell_plot_final_run HNR w2) as (w3 & E3 & Hv3 & Ht3 & Hth3 & Hs3).
  exists w1, w2, w3.
  split; [exact E1 |]. split; [exact E2 |]. split; [exact E3 |].
  rewrite Ht3, Ht2, Hth3, Hth2, Hs3, Hs2, Hv3, Hv2, <- !app_assoc. fw_simpl.
  repeat split.
  - eexists. split; [exact Hz |].
    intros Hd. rewrite Hd. reflexivity.
  - exists pre. rewrite Hs1, Hz. reflexivity.
Qed.

(** C6 (witness): the toy framework never raises; there cell 5 leaves the
    parameters of the trained model as the loop left them. *)
Lemma final_plot_shows_last_checkpoint_witness :
  NoRaise (toy never) /\
  exists w1 w2 w3 : @World (toy never),
    train_loop toy_before_loop = Ok tt w1 /\ plot_hists w1 = Ok tt w2 /\
    cell_plot_final w2 = Ok tt w3 /\ theta (fw w3) = theta (fw w1).
Proof.
  split; [exact toy_never_NoRaise |].
  destruct (final_plot_shows_last_checkpoint toy_never_NoRaise toy_before_loop)
    as (w1 & w2 & w3 & E1 & E2 & E3 & _ & Hth & _).
  exists w1, w2, w3.
  split; [exact E1 |]. split; [exact E2 |]. split; [exact E3 | exact Hth].
Defined.

(** ** What the loop changes *)


(** In the same iteration of the toy run the optimizer state, the CUDA
    generator, the loop variable, the loss and the figures shown change as
    well. *)
Example iteration_changes_more :
  let w := toy_after 499 in
  let w' := final_world (iteration 499 (toy_after 499)) in
  (opt_state (fw w), opt_state (fw w')) = (499, 500) /\
  (cuda_gen (fw w), cuda_gen (fw w')) = (511, 1) /\
  (v_it (vars w), v_it (vars w')) = (498, 499) /\
  (v_loss (vars w), v_loss (vars w'))
  = (S754_finite true 15272300 (-23), S754_finite true 15269783 (-23)) /\
  (List.length (shown (fw w)), List.length (shown (fw w'))) = (2%nat, 3%nat).
Proof. vm_compute. repeat split; reflexivity. Qed.



(** ** Termination *)

(** In the toy framework, which never raises, the notebook runs to its end
    and leaves eight layers and 40 loss values. *)
Lemma notebook_returns_witness :
  NoRaise (toy never) /\
  exists w',
    notebook (toy_world never) = Ok tt w' /\
    v_flows (vars w') = expected_flows [0; 1] 0 8 /\
    List.length (v_loss_hist (vars w')) = 40%nat.
Proof.
  split; [exact toy_never_NoRaise |].
  exact (notebook_returns toy_never_NoRaise (toy_world never)).
Defined.

(** ** Errors *)

(** C8: whatever the framework does, the notebook either makes all its calls
    and each of them returns, or it ends with the exception [e] that the
    framework raised at a call [ev]: every call before [ev] returned, and
    [ev] is the last call made, so nothing recovers from [e] or tries
    again. *)
Theorem errors_propagate : forall (F : Framework) (w : World),
  match notebook w with
  | Ok _ w' => exists l, trace (fw w') = trace (fw w) ++ ok_entries l
  | Raised e w' =>
      exists l ev,
        trace (fw w') = trace (fw w) ++ ok_entries l ++ [(ev, Some e)] /\
        raises (List.length (trace (fw w) ++ ok_entries l)) ev = Some e
  end.
Proof.
  intros F. change (propagating (notebook (F := F))).
  unfold notebook, cell_model, cell_plot_initial, cell_train, cell_plot_final,
    train_setup, train_loop, plot_hists, build_flow, iteration, train_step,
    train_step_with, checkpoint, append_hist, plot_samples, new_FCN, nfm_to, nfm_call,
    new_Adam, optimizer_zero_grad, loss_backward, optimizer_step, torch_cuda_manual_seed,
    plt_figure, plt_draw, plt_show, annealing.
  propagate.
Qed.

(** A statement that catches an exception does not have this property: the
    relation is not one that every statement satisfies. *)
Lemma catch_is_not_propagating :
  ~ propagating (F := toy (fails_at 0 "boom"))
      (catch (pure_call EvTensor tt) (fun _ => ret tt)).
Proof.
  intros H. specialize (H (toy_world (fails_at 0 "boom"))).
  cbn in H. destruct H as [[| ev l] H]; discriminate.
Qed.

(** When the first forward pass of the training loop (call number 60 of the
    run) raises, the notebook ends there with that exception. *)
Example notebook_stops_at_failure :
  let o := notebook (toy_world (fails_at 60 "CUDA out of memory")) in
  returned o = None /\
  List.length (trace (fw (final_world o))) = 61%nat /\
  nth_error (trace (fw (final_world o))) 60
  = Some (EvForward 128, Some "CUDA out of memory"%string).
Proof. vm_compute. repeat split; reflexivity. Qed.

(** ** Checkpoint sampling *)

(** C10: a checkpoint iteration calls [torch.cuda.manual_seed(0)] before it
    draws its 512 samples, with only the construction of the input tensor in
    between.  On a CUDA device the draw therefore starts from the generator
    state that seed 0 gives: the samples [z], and the generator state the
    draw leaves, are those of a draw from that state with the parameters of
    the moment, whatever the generator state was before; this holds at every
    checkpoint of a run. *)
Theorem checkpoint_sampling_reseeded : forall F : Framework, NoRaise F ->
  (forall it w, is_checkpoint it = true -> v_device (vars w) = Cuda ->
     exists w',
       iteration it w = Ok tt w' /\
       trace (fw w')
       = trace (fw w)
         ++ ok_entries (train_events
                        ++ [EvCudaManualSeed 0; EvZeros 512; EvTensorTo; EvForward 512;
                            EvToNumpy; EvFigure; EvHist2d; EvShow;
                            EvToNumpy; EvNpAppend; EvToNumpy; EvNpAppend;
                            EvToNumpy; EvNpAppend]) /\
       v_z (vars w') = fwd_z (checkpoint_draw (vars w) (theta (fw w')) (manual_seed 0)) /\
       cuda_gen (fw w')
       = fwd_gen (checkpoint_draw (vars w) (theta (fw w')) (manual_seed 0))) /\
  (forall n w, is_checkpoint (Z.of_nat n) = true -> v_device (vars w) = Cuda ->
     exists w',
       for_each (range_from 0 (S n)) iteration w = Ok tt w' /\
       v_z (vars w') = fwd_z (checkpoint_draw (vars w) (theta (fw w')) (manual_seed 0)) /\
       cuda_gen (fw w')
       = fwd_gen (checkpoint_draw (vars w) (theta (fw w')) (manual_seed 0))).
Proof.
  intros F HNR. split.
  - intros it w Hck Hd.
    destruct (iteration_run HNR it w) as (w' & E & _ & Ht & Hth & _ & _ & _ & H).
    rewrite Hck in H. destruct H as (Hz & _ & _ & _ & _ & Hgen & _).
    exists w'. split; [exact E |].
    rewrite <- Hth in Hz, Hgen. rewrite Hd in Hz, Hgen.
    unfold iteration_events in Ht. rewrite Hck in Ht.
    repeat split; assumption.
  - intros n w Hck Hd.
    destruct (checkpoint_prefix_run HNR n w Hck)
      as (w1 & w2 & _ & _ & E & _ & Hz & _ & Hgen & _).
    rewrite Hd in Hz, Hgen.
    exists w2. repeat split; assumption.
Qed.

(** C10 (witness): in the toy run the device is CUDA and iteration 499 is a
    checkpoint; its samples are a draw from the state that seed 0 gives. *)
Lemma checkpoint_sampling_reseeded_witness :
  NoRaise (toy never) /\ is_checkpoint 499 = true /\
  v_device (vars (toy_after 499)) = Cuda /\
  exists w',
    iteration 499 (toy_after 499) = Ok tt w' /\
    v_z (vars w')
    = fwd_z (checkpoint_draw (vars (toy_after 499)) (theta (fw w')) (manual_seed 0)).
Proof.
  assert (Hd : v_device (vars (toy_after 499)) = Cuda) by (vm_compute; reflexivity).
  split; [exact toy_never_NoRaise |]. split; [reflexivity |]. split; [exact Hd |].
  destruct (checkpoint_sampling_reseeded toy_never_NoRaise) as [H _].
  destruct (H 499 (toy_after 499) eq_refl Hd) as (w' & E & _ & Hz & _).
  exists w'. split; assumption.
Defined.

(** * Properties of the remaining code *)

(** ** Triples over the notebook variables *)

Section Triples.
Context {F : Framework}.

Lemma vtriple_ret : forall (A : Type) (a : A) (Q : A -> Vars -> Prop) E,
  vtriple (Q a) (ret a) Q E.
Proof. intros A a Q E w H. exact H. Qed.

Lemma vtriple_bind : forall (A B : Type) (m : M A) (k : A -> M B) P Q R E,
  vtriple P m Q E -> (forall a, vtriple (Q a) (k a) R E) -> vtriple P (bind m k) R E.
Proof.
  intros A B m k P Q R E Hm Hk w HP. unfold bind.
  specialize (Hm w HP). destruct (m w) as [a w1 | e w1].
  - apply Hk. exact Hm.
  - exact Hm.
Qed.

Lemma vtriple_for_each : forall l (body : Z -> M unit) (I E : Vars -> Prop),
  (forall it, vtriple I (body it) (fun _ => I) E) ->
  vtriple I (for_each l body) (fun _ => I) E.
Proof.
  intros l body I E Hb. induction l as [| it l IH]; simpl.
  - apply vtriple_ret with (Q := fun _ => I).
  - eapply vtriple_bind; [apply Hb | intros ?; exact IH].
Qed.

(** *** Statements that keep a property [P] of the variables

    A library call changes no notebook variable, and neither does reading
    one; an assignment keeps [P] when its update does. *)

Lemma vtriple_ret_keep : forall (A : Type) (a : A) (P E : Vars -> Prop),
  vtriple P (ret a) (fun _ => P) E.
Proof. intros A a P E w H. exact H. Qed.

Lemma vtriple_call_keep : forall (A : Type) ev (f : Fw -> A * Fw) (P E : Vars -> Prop),
  (forall v, P v -> E v) -> vtriple P (call ev f) (fun _ => P) E.
Proof.
  intros A ev f P E HE w H. unfold call.
  destruct (raises _ _); [apply HE; exact H | destruct (f (fw w)); exact H].
Qed.

Lemma vtriple_get_var_keep : forall (A : Type) (p : Vars -> A) (P E : Vars -> Prop),
  vtriple P (get_var p) (fun _ => P) E.
Proof. intros A p P E w H. exact H. Qed.

Lemma vtriple_assign_keep : forall f (P E : Vars -> Prop),
  (forall v, P v -> P (f v)) -> vtriple P (assign f) (fun _ => P) E.
Proof. intros f P E Hf w H. apply Hf. exact H. Qed.

Lemma vtriple_seq : forall (A B : Type) (m : M A) (k : A -> M B) (P : Vars -> Prop) R E,
  vtriple P m (fun _ => P) E -> (forall a, vtriple P (k a) R E) -> vtriple P (bind m k) R E.
Proof.
  intros A B m k P R E Hm Hk.
  apply vtriple_bind with (Q := fun _ => P); [exact Hm | exact Hk].
Qed.

End Triples.

(** Discharges [vtriple P m (fun _ => P) E] for a statement [m] built from
    calls, reads, sequencing, branches and assignments whose update leaves
    [P] as it is by computation; [HE] proves that [P] implies [E].  It stops
    in front of [append_hist]. *)
Ltac vkeep HE :=
  repeat first
    [ apply vtriple_ret_keep
    | apply vtriple_get_var_keep
    | apply vtriple_call_keep; exact HE
    | apply vtriple_assign_keep; let H := fresh in intros ? H; exact H
    | match goal with
      | |- vtriple _ (bind ?m _) _ _ =>
          lazymatch m with
          | append_hist _ _ _ => fail
          | _ => apply vtriple_seq; [| intros ? ]
          end
      end
    | match goal with
      | |- vtriple _ (if ?c then _ else _) _ _ => destruct c
      | |- vtriple _ (match ?p with pair _ _ => _ end) _ _ => destruct p
      end ].

(** ** What a failing iteration leaves behind *)

Section FailureInvariants.
Context {F : Framework}.

(** [h = np.append(h, ...)] lengthens [h] by one entry when it returns and
    leaves the variables alone when one of its calls raises. *)
Lemma vtriple_append_hist : forall h set t (P Q E : Vars -> Prop),
  (forall v, P v -> E v) ->
  (forall v x, P v -> Q (set (h v ++ [x]) v)) ->
  vtriple P (append_hist h set t) (fun _ => Q) E.
Proof.
  intros h set t P Q E HE HQ w Hw. unfold append_hist, bind, pure_call, call, get_var, assign.
  destruct (raises _ _); [apply HE; exact Hw |].
  cbn [vars fw]. destruct (raises _ _); [apply HE; exact Hw |].
  cbn [vars fw]. apply HQ. exact Hw.
Qed.

Lemma hists_aligned_ordered : forall v, hists_aligned v -> hists_ordered v.
Proof. unfold hists_aligned, hists_ordered. intros v [H1 H2]. lia. Qed.

(** A training step assigns none of the histories. *)
Lemma train_step_hists : forall it,
  vtriple hists_aligned (train_step it) (fun _ => hists_aligned) hists_ordered.
Proof.
  intros it.
  unfold train_step, train_step_with, nfm_call, optimizer_zero_grad, loss_backward,
    optimizer_step, pure_call, annealing.
  vkeep hists_aligned_ordered.
Qed.

(** A checkpoint appends to the three histories in the order [loss_hist],
    [log_q_hist], [log_p_hist]. *)
Lemma checkpoint_hists :
  vtriple hists_aligned checkpoint (fun _ => hists_aligned) hists_ordered.
Proof.
  unfold checkpoint, torch_cuda_manual_seed, nfm_call, plot_samples, plt_figure, plt_draw,
    plt_show, pure_call.
  vkeep hists_aligned_ordered.
  eapply vtriple_bind.
  { apply vtriple_append_hist
      with (Q := fun v => List.length (v_loss_hist v) = S (List.length (v_log_q_hist v))
                          /\ List.length (v_log_q_hist v) = List.length (v_log_p_hist v)).
    - exact hists_aligned_ordered.
    - intros v x [H1 H2]. cbn. rewrite length_app. simpl. lia. }
  intros ?; cbv beta.
  eapply vtriple_bind.
  { apply vtriple_append_hist
      with (Q := fun v => List.length (v_loss_hist v) = List.length (v_log_q_hist v)
                          /\ List.length (v_log_q_hist v) = S (List.length (v_log_p_hist v))).
    - unfold hists_ordered. intros v [H1 H2]. lia.
    - intros v x [H1 H2]. cbn. rewrite length_app. simpl. lia. }
  intros ?; cbv beta.
  apply vtriple_append_hist.
  - unfold hists_ordered. intros v [H1 H2]. lia.
  - unfold hists_aligned. intros v x [H1 H2]. cbn. rewrite length_app. simpl. lia.
Qed.

Lemma iteration_hists : forall it,
  vtriple hists_aligned (iteration it) (fun _ => hists_aligned) hists_ordered.
Proof.
  intros it. unfold iteration.
  apply vtriple_seq; [apply vtriple_assign_keep; intros v H; exact H | intros _].
  apply vtriple_seq; [apply train_step_hists | intros _].
  destruct ((it + 1) mod show_iter =? 0).
  - apply checkpoint_hists.
  - apply vtriple_ret_keep.
Qed.

End FailureInvariants.

(** From histories of equal length, the training loop leaves, however it
    ends, histories whose lengths differ by at most one, [loss_hist] being the
    longest and [log_p_hist] the shortest; when the loop returns they have
    equal length again. *)
Theorem histories_stay_aligned : forall (F : Framework) (w : World),
  hists_aligned (vars w) ->
  hists_ordered (vars (final_world (train_loop w))) /\
  (returned (train_loop w) = Some tt -> hists_aligned (vars (final_world (train_loop w)))).
Proof.
  intros F w Hw.
  pose proof (vtriple_for_each (tqdm (range max_iter)) iteration iteration_hists w Hw) as H.
  fold train_loop in H.
  destruct (train_loop w) as [[] w' | e w']; simpl.
  - split; [apply hists_aligned_ordered; exact H | intros _; exact H].
  - split; [exact H | discriminate].
Qed.

(** In the toy run the histories are empty when the loop starts. *)
Lemma histories_stay_aligned_witness :
  hists_aligned (vars toy_before_loop) /\
  hists_ordered (vars (final_world (train_loop toy_before_loop))).
Proof.
  assert (H : hists_aligned (vars toy_before_loop)) by (vm_compute; split; reflexivity).
  split; [exact H |].
  apply (histories_stay_aligned toy_before_loop H).
Defined.

(** The order of the three appends shows when the second one raises: in the
    toy run where call number 4570 (the [np.append] to [log_q_hist] of the
    first checkpoint) raises, [loss_hist] has one entry and the other two
    histories have none. *)
Example histories_after_failed_append :
  let w := final_world (notebook (toy_world (fails_at (Z.to_nat 4570) "MemoryError"))) in
  nth_error (trace (fw w)) (Z.to_nat 4570) = Some (EvNpAppend, Some "MemoryError"%string) /\
  List.length (v_loss_hist (vars w)) = 1%nat /\
  List.length (v_log_q_hist (vars w)) = 0%nat /\
  List.length (v_log_p_hist (vars w)) = 0%nat.
Proof. vm_compute. repeat split; reflexivity. Qed.

(** ** Statements that keep a part of the libraries' state *)

Section KeepsFw.
Context {F : Framework}.
Variable R : Fw -> Fw -> Prop.
Hypothesis R_refl : forall s, R s s.
Hypothesis R_trans : forall s1 s2 s3, R s1 s2 -> R s2 s3 -> R s1 s3.
Hypothesis R_log : forall ev r s, R s (log ev r s).

Lemma keeps_fw_ret : forall (A : Type) (a : A), keeps_fw R (ret a).
Proof. intros A a w. apply R_refl. Qed.

Lemma keeps_fw_get_var : forall (A : Type) (p : Vars -> A), keeps_fw R (get_var p).
Proof. intros A p w. apply R_refl. Qed.

Lemma keeps_fw_assign : forall f, keeps_fw R (assign f).
Proof. intros f w. apply R_refl. Qed.

Lemma keeps_fw_call : forall (A : Type) ev (f : Fw -> A * Fw),
  (forall s, R s (snd (f s))) -> keeps_fw R (call ev f).
Proof.
  intros A ev f Hf w. unfold call.
  destruct (raises _ _).
  - apply R_log.
  - specialize (Hf (fw w)). destruct (f (fw w)) as [a s]. simpl in *.
    eapply R_trans; [exact Hf | apply R_log].
Qed.

Lemma keeps_fw_bind : forall (A B : Type) (m : M A) (k : A -> M B),
  keeps_fw R m -> (forall a, keeps_fw R (k a)) -> keeps_fw R (bind m k).
Proof.
  intros A B m k Hm Hk w. unfold bind.
  specialize (Hm w). destruct (m w) as [a w1 | e w1]; simpl in Hm.
  - eapply R_trans; [exact Hm | apply Hk].
  - exact Hm.
Qed.

Lemma keeps_fw_for_each : forall l (body : Z -> M unit),
  (forall it, keeps_fw R (body it)) -> keeps_fw R (for_each l body).
Proof.
  intros l body Hb. induction l as [| it l IH]; simpl.
  - apply keeps_fw_ret.
  - apply keeps_fw_bind; [apply Hb | intros ?; exact IH].
Qed.

End KeepsFw.

Section KeptRelations.
Context {F : Framework}.

Lemma same_training_state_refl : forall s, same_training_state s s.
Proof. intros s. unfold same_training_state. repeat split; reflexivity. Qed.

Lemma same_training_state_trans : forall s1 s2 s3,
  same_training_state s1 s2 -> same_training_state s2 s3 -> same_training_state s1 s3.
Proof.
  unfold same_training_state.
  intros s1 s2 s3 (A1 & A2 & A3 & A4) (B1 & B2 & B3 & B4).
  repeat split; etransitivity; eassumption.
Qed.

Lemma same_training_state_log : forall ev r s, same_training_state s (log ev r s).
Proof. intros. unfold same_training_state. repeat split; reflexivity. Qed.

Lemma same_figures_refl : forall s, same_figures s s.
Proof. intros s. split; reflexivity. Qed.

Lemma same_figures_trans : forall s1 s2 s3,
  same_figures s1 s2 -> same_figures s2 s3 -> same_figures s1 s3.
Proof.
  unfold same_figures. intros s1 s2 s3 [A1 A2] [B1 B2].
  split; etransitivity; eassumption.
Qed.

Lemma same_figures_log : forall ev r s, same_figures s (log ev r s).
Proof. intros. split; reflexivity. Qed.

End KeptRelations.

(** Discharges [keeps_fw R m] for [R] one of the two relations above and a
    statement [m] whose calls leave the fields of [R] alone. *)
Ltac keep_fw refl trans lg :=
  repeat first
    [ apply (@keeps_fw_ret _ _ refl) | apply (@keeps_fw_get_var _ _ refl)
    | apply (@keeps_fw_assign _ _ refl)
    | apply (@keeps_fw_for_each _ _ refl trans); intros ?
    | apply (@keeps_fw_bind _ _ trans); [| intros ? ]
    | match goal with
      | |- keeps_fw _ (if ?c then _ else _) => destruct c
      | |- keeps_fw _ (match ?p with pair _ _ => _ end) => destruct p
      | |- keeps_fw _ (call _ _) =>
          apply (@keeps_fw_call _ _ trans lg); intros ?;
          repeat match goal with
                 | |- context [match ?p with pair _ _ => _ end] => destruct p
                 end;
          unfold same_training_state, same_figures; cbn; repeat split; reflexivity
      end ].

Ltac keep_training_state :=
  let r := constr:(same_training_state_refl) in
  let t := constr:(same_training_state_trans) in
  let l := constr:(same_training_state_log) in
  keep_fw r t l.

Ltac keep_figures :=
  let r := constr:(same_figures_refl) in
  let t := constr:(same_figures_trans) in
  let l := constr:(same_figures_log) in
  keep_fw r t l.

(** The statements that plot (a checkpoint, cell 3, the plot of the
    histories, cell 5) never change the parameters, the gradients or the
    optimizer state, however they end; so the parameters an iteration leaves
    are those its training step (after the binding of [it]) left, also when
    its checkpoint raises. *)
Theorem plotting_never_trains : forall (F : Framework) (w : World),
  same_training_state (fw w) (fw (final_world (checkpoint w))) /\
  same_training_state (fw w) (fw (final_world (cell_plot_initial w))) /\
  same_training_state (fw w) (fw (final_world (plot_hists w))) /\
  same_training_state (fw w) (fw (final_world (cell_plot_final w))) /\
  (forall it,
     same_training_state (fw (final_world ((assign (set_it it) ;; train_step it) w)))
       (fw (final_world (iteration it w)))).
Proof.
  intros F w.
  assert (Hck : keeps_fw same_training_state (checkpoint (F := F))).
  { unfold checkpoint, append_hist, plot_samples, nfm_call, torch_cuda_manual_seed,
      plt_figure, plt_draw, plt_show, pure_call.
    keep_training_state. }
  split; [apply Hck |].
  split.
  { revert w. change (keeps_fw same_training_state (cell_plot_initial (F := F))).
    unfold cell_plot_initial, plot_samples, nfm_call, plt_figure, plt_draw, plt_show,
      pure_call.
    keep_training_state. }
  split.
  { revert w. change (keeps_fw same_training_state (plot_hists (F := F))).
    unfold plot_hists, plt_figure, plt_draw, plt_show. keep_training_state. }
  split.
  { revert w. change (keeps_fw same_training_state (cell_plot_final (F := F))).
    unfold cell_plot_final, plot_samples, plt_figure, plt_draw, plt_show, pure_call.
    keep_training_state. }
  intros it. unfold iteration, bind, assign.
  destruct (train_step it _) as [[] w1 | e w1]; simpl.
  - destruct ((it + 1) mod show_iter =? 0).
    + apply Hck.
    + apply same_training_state_refl.
  - apply same_training_state_refl.
Qed.

(** ** Statements that do not plot *)

Section NoPlot.
Context {F : Framework}.

Lemma cell_model_keeps_figures : keeps_fw same_figures cell_model.
Proof.
  unfold cell_model, build_flow, new_FCN, nfm_to, pure_call.
  keep_figures.
Qed.

Lemma train_setup_keeps_figures : keeps_fw same_figures train_setup.
Proof. unfold train_setup, new_Adam, pure_call. keep_figures. Qed.

Lemma train_step_keeps_figures : forall it, keeps_fw same_figures (train_step it).
Proof.
  intros it.
  unfold train_step, train_step_with, nfm_call, optimizer_zero_grad, loss_backward,
    optimizer_step, pure_call, annealing.
  keep_figures.
Qed.

End NoPlot.

(** ** The entries of the histories *)

(** When the loop has ended, entry [j] of each history (for [j] below 40)
    was recorded at iteration [it = 500 * (j + 1) - 1]: the [log_q] and
    [log_p] entries are the [float32] means of the forward pass of that
    iteration, stored as [float64]; the loss entry is the [log_q] number
    minus the annealing weight of that iteration times the [log_p] number,
    computed in [float32]; and from entry 19 on (iteration 9999) the weight
    is 1, so that the recorded loss is the [float32] difference of the two
    numbers. *)
Theorem history_entries : forall F : Framework, NoRaise F -> forall w : World,
  exists w0 w',
    train_setup w = Ok tt w0 /\ train_loop w0 = Ok tt w' /\
    forall j, (j < 40)%nat ->
      let it := 500 * (Z.of_nat j + 1) - 1 in
      let wj := loop_state w0 (Z.to_nat it) in
      let q := tensor_item (torch_mean (fwd_log_q (train_forward wj))) in
      let p := tensor_item (torch_mean (fwd_log_p (train_forward wj))) in
      nth_error (v_log_q_hist (vars w')) j = Some (f64_of_f32 q) /\
      nth_error (v_log_p_hist (vars w')) j = Some (f64_of_f32 p) /\
      nth_error (v_loss_hist (vars w')) j
      = Some (f64_of_f32 (f32_sub q (f32_mul (f32_of_f64 (anneal_weight64 it)) p))) /\
      ((19 <= j)%nat -> SpecFloat.valid_binary prec32 emax32 p = true ->
       nth_error (v_loss_hist (vars w')) j = Some (f64_of_f32 (f32_sub q p))).
Proof.
  intros F HNR w.
  destruct (loop_histories HNR w) as (w0 & w' & E0 & E1 & _ & Hl & Hq & Hp).
  exists w0, w'. split; [exact E0 |]. split; [exact E1 |].
  intros j Hj. cbv zeta.
  rewrite Hl, Hq, Hp, !checkpoints_nth by exact Hj.
  unfold loss_entry, log_q_entry, log_p_entry, step_loss, step_mean_log_q, step_mean_log_p,
    checkpoint_iteration, show_iter.
  rewrite (loss_tensor_item annealing). unfold annealing, loss_value.
  split; [reflexivity |]. split; [reflexivity |]. split; [reflexivity |].
  intros H19 Hv. do 2 f_equal.
  apply (loss_value_saturated (it := 500 * (Z.of_nat j + 1) - 1)); [| exact Hv].
  unfold max_iter. lia.
Qed.

(** In the toy framework, which never raises, the means are -2 and -3 in
    every iteration, and entry 19 of the loss history is their difference,
    1. *)
Lemma history_entries_witness :
  NoRaise (toy never) /\
  exists w0 w',
    train_setup (toy_world never) = Ok tt w0 /\ train_loop w0 = Ok tt w' /\
    nth_error (v_loss_hist (vars w')) 19 = Some (f64_of_f32 (f32_of_Z 1)).
Proof.
  split; [exact toy_never_NoRaise |].
  destruct (history_entries toy_never_NoRaise (toy_world never))
    as (w0 & w' & E0 & E1 & H).
  exists w0, w'. split; [exact E0 |]. split; [exact E1 |].
  destruct (H 19%nat) as (_ & _ & _ & H19); [repeat constructor |].
  rewrite H19; [reflexivity | apply le_n | reflexivity].
Defined.

(** ** The figures of the notebook *)

Section Figures.
Context {F : Framework}.
Hypothesis HNR : NoRaise F.

(** What cell 3 does to the world. *)
Lemma cell_plot_initial_full_run : forall w,
  let l := torch_linspace (-3) 3 grid_size in
  let xx := fst (torch_meshgrid l l) in
  let yy := snd (torch_meshgrid l l) in
  let grid := torch_cat [tensor_unsqueeze xx 2; tensor_unsqueeze yy 2] 2 in
  let d := v_device (vars w) in
  let r := nfm_forward (v_nfm (vars w)) (theta (fw w)) (dev_gen d (fw w))
             (torch_zeros 512 d) 512 in
  exists w',
    cell_plot_initial w = Ok tt w' /\
    shown (fw w')
    = shown (fw w)
      ++ [[AMesh xx yy (torch_exp (prior_log_prob (v_prior (vars w)) grid))];
          [AHist2d (to_numpy (fwd_z r))]] /\
    cur_fig (fw w') = [] /\
    vars w' = set_z_np (to_numpy (fwd_z r))
                (set_underscore (fwd_log_p r) (set_z (fwd_z r) (vars w))) /\
    theta (fw w') = theta (fw w) /\
    dev_gen d (fw w') = fwd_gen r.
Proof.
  intros w. cbv zeta.
  unfold cell_plot_initial, plot_samples, plt_figure, plt_draw, plt_show, bind, get_var, assign.
  run HNR.
  destruct (torch_meshgrid _ _) as [xx yy].
  run HNR. eexists; split; [reflexivity |].
  fw_simpl. autorewrite with fw_gen. rewrite <- ?app_assoc.
  repeat split; reflexivity.
Qed.

Lemma cell_plot_final_cur_fig : forall w w',
  cell_plot_final w = Ok tt w' -> cur_fig (fw w') = [].
Proof.
  intros w w'.
  unfold cell_plot_final, plot_samples, plt_figure, plt_draw, plt_show, bind, get_var, assign.
  run HNR. intros E. injection E as <-. reflexivity.
Qed.

(** The figures the first [n] iterations show: one histogram per
    checkpoint. *)
Lemma iterations_figures : forall n w0,
  exists w,
    for_each (range_from 0 n) iteration w0 = Ok tt w /\
    after_iterations w0 n w /\
    exists figs,
      shown (fw w) = shown (fw w0) ++ figs /\
      List.length figs = List.length (checkpoints n) /\
      Forall is_hist_figure figs.
Proof.
  intros n w0.
  apply (for_each_inv iteration
           (fun k w =>
              after_iterations w0 k w /\
              exists figs,
                shown (fw w) = shown (fw w0) ++ figs /\
                List.length figs = List.length (checkpoints k) /\
                Forall is_hist_figure figs)).
  - intros k w _ [Ha (figs & Hs & Hlen & Hall)].
    destruct (after_iterations_step HNR Ha) as (w' & E & Ha').
    exists w'. split; [exact E |]. split; [exact Ha' |].
    rewrite Z.add_0_l in E.
    destruct (iteration_run HNR (Z.of_nat k) w) as (w'' & E' & _ & _ & _ & _ & _ & _ & Hck).
    rewrite E in E'. injection E' as <-.
    rewrite checkpoints_succ.
    destruct (is_checkpoint (Z.of_nat k)).
    + destruct Hck as (_ & _ & _ & _ & _ & _ & Hs').
      eexists (figs ++ [_]). rewrite Hs', Hs, <- app_assoc.
      split; [reflexivity |]. split.
      * rewrite !length_app, Hlen. reflexivity.
      * apply Forall_app. split; [exact Hall |].
        constructor; [eexists; reflexivity | constructor].
    + destruct Hck as (_ & _ & _ & _ & _ & _ & Hs').
      exists figs. rewrite Hs', Hs, app_nil_r. repeat split; assumption.
  - split; [apply after_iterations_0 |].
    exists []. rewrite app_nil_r. repeat split; constructor.
Qed.

End Figures.

(** When no call raises, the notebook shows 44 figures and leaves none
    open: the target density, the samples of the untrained model, one
    histogram of samples for each of the 40 checkpoints, the three histories
    as curves labelled loss, log_q and log_p with a legend, and the histogram
    of the samples that [z_np] holds at the end. *)
Theorem notebook_figures : forall F : Framework, NoRaise F -> forall w : World,
  exists w',
    notebook w = Ok tt w' /\
    cur_fig (fw w') = [] /\
    exists density first figs,
      shown (fw w')
      = shown (fw w) ++ [density; first] ++ figs
        ++ [[ALine (v_loss_hist (vars w')) "loss"; ALine (v_log_q_hist (vars w')) "log_q";
             ALine (v_log_p_hist (vars w')) "log_p"; ALegend];
            [AHist2d (v_z_np (vars w'))]] /\
      (exists xx yy c, density = [AMesh xx yy c]) /\
      is_hist_figure first /\
      List.length figs = 40%nat /\
      Forall is_hist_figure figs.
Proof.
  intros F HNR w. unfold notebook, cell_train.
  destruct (cell_model_run HNR w) as (w1 & E1 & _).
  pose proof (cell_model_keeps_figures w) as [Hs1 _]. rewrite E1 in Hs1. simpl in Hs1.
  destruct (cell_plot_initial_full_run HNR w1) as (w2 & E2 & Hs2 & _).
  destruct (train_setup_run HNR w2) as (w3 & E3 & _ & _ & _ & _ & _ & Hs3).
  destruct (iterations_figures HNR (Z.to_nat max_iter) w3)
    as (w4 & E4 & _ & figs & Hs4 & Hlen & Hall).
  destruct (plot_hists_run HNR w4) as (w5 & E5 & Hv5 & _ & _ & Hs5).
  destruct (cell_plot_final_run HNR w5) as (w6 & E6 & Hv6 & _ & _ & Hs6).
  exists w6. split; [| split].
  - erewrite bind_run by exact E1. erewrite bind_run by exact E2.
    erewrite bind_run.
    2: { erewrite bind_run by exact E3. erewrite bind_run by exact E4. exact E5. }
    exact E6.
  - exact (cell_plot_final_cur_fig HNR _ E6).
  - do 2 eexists. exists figs.
    rewrite Hs6, Hs5, Hs4, Hs3, Hs2, Hs1, Hv6, Hv5. fw_simpl.
    rewrite <- !app_assoc. split; [reflexivity |].
    split; [do 3 eexists; reflexivity |].
    split; [eexists; reflexivity |].
    split; [| exact Hall].
    apply Nat2Z.inj. rewrite Hlen, checkpoints_length, Z2Nat.id by discriminate.
    reflexivity.
Qed.

(** In the toy framework, which never raises, the notebook leaves no figure
    open. *)
Lemma notebook_figures_witness :
  NoRaise (toy never) /\
  exists w', notebook (toy_world never) = Ok tt w' /\ cur_fig (fw w') = [].
Proof.
  split; [exact toy_never_NoRaise |].
  destruct (notebook_figures toy_never_NoRaise (toy_world never)) as (w' & E & Hc & _).
  exists w'. split; assumption.
Defined.

(** Cell 3 shows two figures, the density [exp(prior.log_prob(z))] on
    the grid over [-3, 3] x [-3, 3] with 200 points per axis, and the
    histogram of 512 samples drawn from the model with the parameters it has
    before training; the variable [z], which held the grid, holds the samples
    afterwards, the parameters are unchanged and the generator of the device
    has advanced by that one draw. *)
Theorem initial_plot : forall F : Framework, NoRaise F -> forall w : World,
  let l := torch_linspace (-3) 3 200 in
  let xx := fst (torch_meshgrid l l) in
  let yy := snd (torch_meshgrid l l) in
  let grid := torch_cat [tensor_unsqueeze xx 2; tensor_unsqueeze yy 2] 2 in
  let d := v_device (vars w) in
  let r := nfm_forward (v_nfm (vars w)) (theta (fw w)) (dev_gen d (fw w))
             (torch_zeros 512 d) 512 in
  exists w',
    cell_plot_initial w = Ok tt w' /\
    shown (fw w')
    = shown (fw w)
      ++ [[AMesh xx yy (torch_exp (prior_log_prob (v_prior (vars w)) grid))];
          [AHist2d (to_numpy (fwd_z r))]] /\
    v_z (vars w') = fwd_z r /\ v_z_np (vars w') = to_numpy (fwd_z r) /\
    same_constants (vars w) (vars w') /\
    theta (fw w') = theta (fw w) /\
    dev_gen d (fw w') = fwd_gen r.
Proof.
  intros F HNR w. cbv zeta.
  destruct (cell_plot_initial_full_run HNR w) as (w' & E & Hs & _ & Hv & Hth & Hg).
  exists w'. split; [exact E |]. split; [exact Hs |].
  rewrite Hv. unfold same_constants. fw_simpl.
  repeat split; assumption.
Qed.

(** In the toy framework, which never raises, cell 3 runs after cell 2. *)
Lemma initial_plot_witness :
  NoRaise (toy never) /\
  exists w',
    cell_plot_initial (final_world (cell_model (toy_world never))) = Ok tt w'.
Proof.
  split; [exact toy_never_NoRaise |].
  destruct (initial_plot toy_never_NoRaise (final_world (cell_model (toy_world never))))
    as (w' & E & _).
  exists w'. exact E.
Defined.

(** ** Random-number generators *)

(** On the CPU device the reseeding of the CUDA generator does not
    reach the checkpoint's draw: its 512 samples are drawn from the generator
    state that the training step of the same iteration left, and the draw
    advances the CPU generator that the next training step uses. *)
Theorem checkpoint_sampling_on_cpu : forall F : Framework, NoRaise F ->
  forall it w, is_checkpoint it = true -> v_device (vars w) = Cpu ->
  exists w',
    iteration it w = Ok tt w' /\
    cpu_gen (fw (final_world (train_step it w))) = fwd_gen (train_forward w) /\
    v_z (vars w')
    = fwd_z (checkpoint_draw (vars w) (theta (fw w')) (fwd_gen (train_forward w))) /\
    cpu_gen (fw w')
    = fwd_gen (checkpoint_draw (vars w) (theta (fw w')) (fwd_gen (train_forward w))).
Proof.
  intros F HNR it w Hck Hd.
  destruct (iteration_run HNR it w) as (w' & E & _ & _ & Hth & _ & _ & _ & H).
  rewrite Hck in H. destruct H as (Hz & _ & _ & _ & _ & Hgen & _).
  destruct (train_step_with_run HNR annealing it w)
    as (w1 & E1 & _ & _ & _ & _ & _ & Hgen1 & _).
  exists w'. split; [exact E |].
  rewrite <- Hth in Hz, Hgen. rewrite Hd in Hz, Hgen, Hgen1.
  unfold train_step. rewrite E1.
  repeat split; assumption.
Qed.

(** A world on the CPU device; iteration 499 is a checkpoint. *)
Lemma checkpoint_sampling_on_cpu_witness :
  NoRaise (toy never) /\ is_checkpoint 499 = true /\
  v_device (vars (toy_world never)) = Cpu /\
  exists w', iteration 499 (toy_world never) = Ok tt w'.
Proof.
  split; [exact toy_never_NoRaise |]. split; [reflexivity |]. split; [reflexivity |].
  destruct (checkpoint_sampling_on_cpu toy_never_NoRaise 499 (toy_world never)
              eq_refl eq_refl) as (w' & E & _).
  exists w'. exact E.
Defined.

Lemma is_checkpoint_nat : forall k,
  is_checkpoint (Z.of_nat k) = (S k mod 500 =? 0)%nat.
Proof.
  intros k. unfold is_checkpoint, show_iter.
  replace (Z.of_nat k + 1) with (Z.of_nat (S k)) by lia.
  change 500 with (Z.of_nat 500). rewrite <- Nat2Z.inj_mod.
  destruct (Nat.eqb_spec (S k mod 500) 0) as [E | E].
  - rewrite E. reflexivity.
  - apply Z.eqb_neq. lia.
Qed.

Lemma mod_500_succ : forall k,
  (S k mod 500 <> 0 -> S k mod 500 = S (k mod 500))%nat.
Proof.
  intros k Hne.
  pose proof (Nat.div_mod_eq k 500) as Hk.
  pose proof (Nat.mod_upper_bound k 500 ltac:(discriminate)) as Hlt.
  destruct (Nat.eq_dec (k mod 500) 499) as [E | E].
  - exfalso. apply Hne. symmetry.
    apply (Nat.mod_unique (S k) 500 (S (k / 500)) 0); lia.
  - symmetry. apply (Nat.mod_unique (S k) 500 (k / 500)); lia.
Qed.

Section TrainingNoise.
Context {F : Framework}.
Hypothesis HNR : NoRaise F.
Hypothesis Hign : gen_advance_ignores_params.

(** On CUDA, from the first checkpoint on, the generator state depends only
    on the number of training steps since the last checkpoint. *)
Lemma iterations_cuda_gen : forall w0 th, v_device (vars w0) = Cuda ->
  forall n,
  exists w,
    for_each (range_from 0 n) iteration w0 = Ok tt w /\
    ((500 <= n)%nat -> cuda_gen (fw w) = train_gen (vars w0) th (n mod 500)).
Proof.
  intros w0 th Hd n.
  destruct (@for_each_inv F iteration
              (fun k w =>
                 after_iterations w0 k w /\
                 ((500 <= k)%nat -> cuda_gen (fw w) = train_gen (vars w0) th (k mod 500)))
              n 0) with (w := w0) as (w & E & _ & H).
  - intros k w _ [Ha Hg].
    destruct (after_iterations_step HNR Ha) as (w' & E & Ha').
    exists w'. split; [exact E |]. split; [exact Ha' |].
    rewrite Z.add_0_l in E.
    destruct (iteration_run HNR (Z.of_nat k) w) as (w'' & E' & _ & _ & _ & _ & _ & _ & Hck).
    rewrite E in E'. injection E' as <-.
    destruct Ha as ((_ & _ & _ & _ & Hnfm & Hdev & Hx & _) & _).
    rewrite Hdev, Hd in Hck. rewrite is_checkpoint_nat in Hck.
    intros Hk.
    destruct (Nat.eqb_spec (S k mod 500) 0) as [E0 | E0].
    + destruct Hck as (_ & _ & _ & _ & _ & Hgen & _).
      rewrite E0. cbn [dev_gen] in Hgen. rewrite Hgen.
      unfold train_gen, checkpoint_gen, checkpoint_draw.
      rewrite Hnfm, Hdev. apply Hign.
    + destruct Hck as (_ & _ & _ & _ & _ & Hgen & _).
      rewrite (@mod_500_succ k E0).
      assert (Hk' : (500 <= k)%nat).
      { destruct (Nat.eq_dec k 499) as [-> | ]; [| lia].
        exfalso. apply E0. reflexivity. }
      cbn [dev_gen] in Hgen. rewrite Hgen.
      unfold train_forward. rewrite Hnfm, Hdev, Hd, Hx. cbn [dev_gen train_gen].
      rewrite (Hg Hk'). apply Hign.
  - split; [apply after_iterations_0 | lia].
  - exists w. split; assumption.
Qed.

End TrainingNoise.

(** On CUDA the noise of the training steps repeats with the period of
    the checkpoints.  Every checkpoint reseeds the CUDA generator with 0 and
    the training steps draw from the same generator; so when the state a
    forward pass leaves the generator in does not depend on the parameters,
    the training step that follows [k] iterations and the one that follows
    [k + 500] iterations start from the same generator state, from the first
    checkpoint on. *)
Theorem training_noise_repeats : forall F : Framework, NoRaise F ->
  @gen_advance_ignores_params F ->
  forall w0 : World, v_device (vars w0) = Cuda ->
  forall k, (500 <= k)%nat ->
  exists w w',
    for_each (range_from 0 k) iteration w0 = Ok tt w /\
    for_each (range_from 0 (k + 500)) iteration w0 = Ok tt w' /\
    cuda_gen (fw w') = cuda_gen (fw w).
Proof.
  intros F HNR Hign w0 Hd k Hk.
  destruct (iterations_cuda_gen HNR Hign w0 (theta (fw w0)) Hd k) as (w & E & Hg).
  destruct (iterations_cuda_gen HNR Hign w0 (theta (fw w0)) Hd (k + 500)) as (w' & E' & Hg').
  exists w, w'. split; [exact E |]. split; [exact E' |].
  rewrite (Hg Hk), Hg' by lia.
  f_equal.
  replace (k + 500)%nat with (k + 1 * 500)%nat by lia.
  apply Nat.Div0.mod_add.
Qed.

(** The toy framework never raises, its forward pass advances the generator
    by one whatever the parameters are, and it selects the CUDA device. *)
Lemma training_noise_repeats_witness :
  NoRaise (toy never) /\ @gen_advance_ignores_params (toy never) /\
  v_device (vars toy_before_loop) = Cuda /\ (500 <= 500)%nat /\
  exists w w',
    for_each (range_from 0 500) iteration toy_before_loop = Ok tt w /\
    for_each (range_from 0 (500 + 500)) iteration toy_before_loop = Ok tt w' /\
    cuda_gen (fw w') = cuda_gen (fw w).
Proof.
  split; [exact toy_never_NoRaise |].
  split; [intros nfm th1 th2 g x n; reflexivity |].
  split; [vm_compute; reflexivity |].
  split; [apply le_n |].
  apply (training_noise_repeats toy_never_NoRaise
           (fun nfm th1 th2 g x n => eq_refl) toy_before_loop).
  - vm_compute; reflexivity.
  - apply le_n.
Defined.

(** ** The parameters of the assembled model *)

Section ModelParams.
Context {F : Framework}.
Hypothesis HNR : NoRaise F.




End ModelParams.


